(** * A shallow embedding of [http.cpp]: the request handler of the static
    file server, and the properties of its responses.

    [std::string] is [string] (a sequence of 8-bit characters, NUL
    included); the [std::map] of content types is a [gmap string string];
    the operating system (file system, clock, socket) is an explicit
    environment, and what the handler does to it is a trace of events.
    A handler either returns or is left by an exception; [handleClient]
    is the function of a [std::thread], so an exception that leaves it
    ends the process ([std::terminate]).  The listening socket, the accept
    loop and [main] are not part of the embedding. *)

From Stdlib Require Import ZArith Ascii DecimalString.
From stdpp Require Import gmap strings list.
From Equations Require Import Equations.

(** ** [std::string] operations used by the server *)

Module Str.

(** [s.length()] *)
Fixpoint length (s : string) : nat :=
  match s with
  | EmptyString => O
  | String _ s' => S (length s')
  end.

(** Is [p] an initial segment of [s]? *)
Fixpoint starts_with (p s : string) : bool :=
  match p, s with
  | EmptyString, _ => true
  | String a p', String b s' => if Ascii.eqb a b then starts_with p' s' else false
  | String _ _, EmptyString => false
  end.

(** [s.find(t)]: the least position at which [t] occurs in [s];
    [None] is [std::string::npos]. *)
Fixpoint find (s t : string) : option nat :=
  if starts_with t s then Some O
  else match s with
       | EmptyString => None
       | String _ s' => S <$> find s' t
       end.

(** [s.find_last_of(c)]: the greatest position of [c] in [s]. *)
Fixpoint find_last_of (s : string) (c : ascii) : option nat :=
  match s with
  | EmptyString => None
  | String a s' =>
      match find_last_of s' c with
      | Some i => Some (S i)
      | None => if Ascii.eqb a c then Some O else None
      end
  end.

(** [s.substr(pos)] for [pos <= s.length()] (the only use in the source
    passes a position returned by [find_last_of]). *)
Fixpoint substr (s : string) (pos : nat) : string :=
  match pos, s with
  | O, _ => s
  | S n, String _ s' => substr s' n
  | S _, EmptyString => EmptyString
  end.

(** The first [n] characters of [s]. *)
Fixpoint take (n : nat) (s : string) : string :=
  match n, s with
  | S n', String a s' => String a (take n' s')
  | _, _ => EmptyString
  end.

Fixpoint concat (l : list string) : string :=
  match l with
  | [] => EmptyString
  | s :: l' => s +:+ concat l'
  end.

(** Does the character [c] occur in [s]? *)
Fixpoint mem (c : ascii) (s : string) : bool :=
  match s with
  | EmptyString => false
  | String a s' => if Ascii.eqb a c then true else mem c s'
  end.

(** [std::to_string] and [operator<<] on integers: decimal digits. *)
Definition of_nat (n : nat) : string := NilZero.string_of_uint (Nat.to_uint n).
Definition of_Z (z : Z) : string := NilZero.string_of_int (Z.to_int z).

End Str.

(** ** The server object *)

Record HTTPServer := {
  port : Z;
  web_root : string;
  mime_types : gmap string string
}.

Definition setupMimeTypes : gmap string string :=
  <[".html" := "text/html"]>
  (<[".css" := "text/css"]>
  (<[".js" := "application/javascript"]>
  (<[".json" := "application/json"]>
  (<[".png" := "image/png"]>
  (<[".jpg" := "image/jpeg"]>
  (<[".jpeg" := "image/jpeg"]>
  (<[".gif" := "image/gif"]>
  (<[".txt" := "text/plain"]> ∅)))))))).

(** The constructor: [HTTPServer(port, web_root)] calls [setupMimeTypes]. *)
Definition HTTPServer_new (port : Z) (web_root : string) : HTTPServer :=
  {| port := port; web_root := web_root; mime_types := setupMimeTypes |}.

Definition getMimeType (this : HTTPServer) (path : string) : string :=
  match Str.find_last_of path "." with
  | Some dot_pos =>
      let ext := Str.substr path dot_pos in
      match mime_types this !! ext with
      | Some second => second
      | None => "application/octet-stream"
      end
  | None => "application/octet-stream"
  end.

(** ** The environment and the effects of a handler *)

(** What a handler does to the outside world, in order. *)
Inductive event :=
| EvOpen (path : string)            (* std::ifstream file(path, std::ios::binary) *)
| EvSend (fd : Z) (data : string)   (* send(fd, data, len, 0) *)
| EvClose (fd : Z).                 (* close(fd) *)

(** The exception of [std::filesystem::canonical]. *)
Inductive exn := filesystem_error (path : string).

(** How a call ends: it returns, or an exception leaves it. *)
Inductive completion (A : Type) :=
| Returned (a : A)
| Thrown (e : exn).
Arguments Returned {A} a.
Arguments Thrown {A} e.

Record io (A : Type) := IO { trace : list event; outcome : completion A }.
Arguments IO {A} trace outcome.
Arguments trace {A} _.
Arguments outcome {A} _.

#[export] Instance io_ret : MRet io := fun A a => IO [] (Returned a).

(** Sequencing: the events of both parts, unless the first part throws,
    in which case the rest of the function is skipped. *)
#[export] Instance io_bind : MBind io := fun A B k m =>
  match outcome m with
  | Returned a => IO (trace m ++ trace (k a)) (outcome (k a))
  | Thrown e => IO (trace m) (Thrown e)
  end.

Definition emit (e : event) : io unit := IO [e] (Returned ()).
Definition throw {A : Type} (e : exn) : io A := IO [] (Thrown e).

(** The file system as the handler sees it.  [canonical p = None] when
    [std::filesystem::canonical(p)] throws (the path does not exist);
    [open_read p] is the contents of the regular file at [p] when an
    [ifstream] on [p] opens, and [None] when it does not.  What an
    [ifstream] does on something that is not a regular file (a directory,
    whose end position says nothing about what can be read) is not
    described. *)
Record FileSystem := {
  canonical : string -> option string;
  open_read : string -> option string
}.

(** What one [read] on the connection finds. *)
Inductive pending :=
| RecvError                (* read returns -1 *)
| Recv (data : string).    (* the bytes available; none at end of stream *)

(** [read(fd, buffer, count)] on a zero-initialised [buffer] of [count]
    bytes: the return value and the array afterwards. *)
Definition read (p : pending) (count : nat) : Z * string :=
  match p with
  | RecvError => ((-1)%Z, String.string_of_list_ascii (replicate count zero))
  | Recv data =>
      let got := Str.take count data in
      (Z.of_nat (Str.length got),
       got +:+ String.string_of_list_ascii (replicate (count - Str.length got) zero))
  end.

(** [std::string request(buffer)]: the characters before the first NUL.
    When all [count] bytes were filled and none is NUL the array is not
    terminated; the embedding then takes the whole array. *)
Fixpoint c_str (buffer : string) : string :=
  match buffer with
  | EmptyString => EmptyString
  | String c rest => if Ascii.eqb c zero then EmptyString else String c (c_str rest)
  end.

(** ** Request parsing: [std::getline] and [operator>>] *)

(** [std::isspace] in the "C" locale. *)
Definition isspace (c : ascii) : bool :=
  let n := nat_of_ascii c in
  Nat.eqb n 32 || (Nat.leb 9 n && Nat.leb n 13).

(** [std::getline(stream, line)] on a fresh stream: up to the first
    newline, which is dropped. *)
Fixpoint getline (s : string) : string :=
  match s with
  | EmptyString => EmptyString
  | String c rest => if Ascii.eqb c "010" then EmptyString else String c (getline rest)
  end.

Record istringstream := { unread : string; failbit : bool }.

Definition istringstream_of (s : string) : istringstream :=
  {| unread := s; failbit := false |}.

Fixpoint skipws (s : string) : string :=
  match s with
  | EmptyString => EmptyString
  | String c rest => if isspace c then skipws rest else s
  end.

Fixpoint word (s : string) : string :=
  match s with
  | EmptyString => EmptyString
  | String c rest => if isspace c then EmptyString else String c (word rest)
  end.

Fixpoint after_word (s : string) : string :=
  match s with
  | EmptyString => EmptyString
  | String c rest => if isspace c then s else after_word rest
  end.

(** [stream >> target] for a default-constructed (empty) [target]: skip
    white space, then take characters up to the next white space.  On a
    failed stream, or when only white space is left, nothing is stored
    and the stream fails. *)
Definition extract (st : istringstream) : string * istringstream :=
  if failbit st then (EmptyString, st)
  else match skipws (unread st) with
       | EmptyString => (EmptyString, {| unread := EmptyString; failbit := true |})
       | String c rest =>
           (word (String c rest), {| unread := after_word (String c rest); failbit := false |})
       end.

Record Request := { method : string; path : string; protocol : string }.

(** Lines 63-71 of [handleClient]. *)
Definition parse_request (request : string) : Request :=
  let request_line := getline request in
  let request_line_stream := istringstream_of request_line in
  let '(method, st1) := extract request_line_stream in
  let '(path, st2) := extract st1 in
  let '(protocol, _) := extract st2 in
  {| method := method; path := path; protocol := protocol |}.

(** ** The clock: [time], [gmtime] and [strftime] *)

(** The fields of [struct tm] the format uses. *)
Record tm := {
  tm_sec : Z; tm_min : Z; tm_hour : Z;
  tm_mday : Z;    (* 1..31 *)
  tm_mon : Z;     (* 0..11 *)
  tm_year : Z;    (* years since 1900 *)
  tm_wday : Z     (* 0 is Sunday *)
}.

(** [gmtime] of a number of seconds since 1970-01-01 00:00:00 UTC, in the
    proleptic Gregorian calendar. *)
Definition gmtime (t : Z) : tm :=
  let days := (t / 86400)%Z in
  let secs := (t mod 86400)%Z in
  let z := (days + 719468)%Z in
  let era := (z / 146097)%Z in
  let doe := (z - era * 146097)%Z in
  let yoe := ((doe - doe / 1460 + doe / 36524 - doe / 146096) / 365)%Z in
  let doy := (doe - (365 * yoe + yoe / 4 - yoe / 100))%Z in
  let mp := ((5 * doy + 2) / 153)%Z in
  let d := (doy - (153 * mp + 2) / 5 + 1)%Z in
  let m := (if (mp <? 10)%Z then mp + 3 else mp - 9)%Z in
  let y := (yoe + era * 400 + (if (m <=? 2)%Z then 1 else 0))%Z in
  {| tm_sec := (secs mod 60)%Z;
     tm_min := ((secs mod 3600) / 60)%Z;
     tm_hour := (secs / 3600)%Z;
     tm_mday := d;
     tm_mon := (m - 1)%Z;
     tm_year := (y - 1900)%Z;
     tm_wday := ((days + 4) mod 7)%Z |}.

(** [%a] and [%b] in the "C" locale. *)
Definition day_name (wday : Z) : string :=
  nth (Z.to_nat wday) ["Sun"; "Mon"; "Tue"; "Wed"; "Thu"; "Fri"; "Sat"] "?".

Definition month_name (mon : Z) : string :=
  nth (Z.to_nat mon)
    ["Jan"; "Feb"; "Mar"; "Apr"; "May"; "Jun";
     "Jul"; "Aug"; "Sep"; "Oct"; "Nov"; "Dec"] "?".

(** [%d], [%H], [%M], [%S]: two digits. *)
Definition two_digits (n : Z) : string :=
  if (n <? 10)%Z then "0" +:+ Str.of_Z n else Str.of_Z n.

(** [strftime(buf, sizeof(buf), "%a, %d %b %Y %H:%M:%S GMT", &tm)] *)
Definition strftime (t : tm) : string :=
  day_name (tm_wday t) +:+ ", " +:+ two_digits (tm_mday t) +:+ " "
    +:+ month_name (tm_mon t) +:+ " " +:+ Str.of_Z (tm_year t + 1900) +:+ " "
    +:+ two_digits (tm_hour t) +:+ ":" +:+ two_digits (tm_min t) +:+ ":"
    +:+ two_digits (tm_sec t) +:+ " GMT".

(** ** The connection handler *)

Definition BUFFER_SIZE : nat := 4096.

(** The escapes of the source's literals. *)
Definition LF : string := String "010" EmptyString.
Definition CRLF : string := String "013" LF.

Definition send (fd : Z) (data : string) : io unit := emit (EvSend fd data).
Definition close (fd : Z) : io unit := emit (EvClose fd).

Definition inspect {A : Type} (a : A) : {b : A | a = b} := exist _ a eq_refl.

(** Lines 126-129: [while (file.read(buffer, sizeof(buffer)).gcount() > 0)
    send(client_socket, buffer, file.gcount(), 0);] on the unread part of
    the file.  A read takes up to [BUFFER_SIZE] characters; it gets none
    exactly when nothing is left. *)
#[local] Opaque BUFFER_SIZE.

Equations read_loop (client_socket : Z) (file : string) : list event
  by wf (Str.length file) lt :=
  read_loop client_socket file with inspect (Str.take BUFFER_SIZE file) := {
    | exist _ EmptyString _ => [];
    | exist _ (String a chunk) Hgcount =>
        EvSend client_socket (String a chunk)
          :: read_loop client_socket (Str.substr file BUFFER_SIZE) }.
Next Obligation.
  assert (Hle : forall n s, (Str.length (Str.substr s n) <= Str.length s)%nat).
  { induction n as [|n IH]; intros [|c s]; simpl; auto with arith. }
  destruct file as [|b file]; [discriminate|].
  with_strategy transparent [BUFFER_SIZE]
    (apply Nat.lt_succ_r, (Hle 4095%nat file)).
Qed.

#[local] Transparent BUFFER_SIZE.

Section Handler.

Variable this : HTTPServer.
Variable os : FileSystem.
(** The value of [time(0)] when the response is built. *)
Variable now : Z.

Definition getTimeString : string := strftime (gmtime now).

Definition fs_canonical (p : string) : io string :=
  match canonical os p with
  | Some c => mret c
  | None => throw (filesystem_error p)
  end.

(** [std::ifstream file(p, std::ios::binary)]; [!file] is [None].  The
    size found by [seekg]/[tellg] is the number of bytes of the contents. *)
Definition ifstream (p : string) : io (option string) :=
  IO [EvOpen p] (Returned (open_read os p)).

Definition error_body (error_code : Z) (error_message : string) : string :=
  "<html><body><h1>" +:+ Str.of_Z error_code +:+ " " +:+ error_message
    +:+ "</h1></body></html>".

Definition error_response (error_code : Z) (error_message : string) : string :=
  let body := error_body error_code error_message in
  "HTTP/1.1 " +:+ Str.of_Z error_code +:+ " " +:+ error_message +:+ CRLF
    +:+ "Content-Type: text/html" +:+ CRLF
    +:+ "Content-Length: " +:+ Str.of_nat (Str.length body) +:+ CRLF
    +:+ "Date: " +:+ getTimeString +:+ CRLF
    +:+ "Server: CPP-HTTP-Server/1.0" +:+ CRLF
    +:+ "Connection: close" +:+ CRLF +:+ CRLF
    +:+ body.

Definition sendError (client_socket : Z) (error_code : Z) (error_message : string)
  : io unit :=
  send client_socket (error_response error_code error_message).

Definition file_headers (file_path : string) (file_size : nat) : string :=
  "HTTP/1.1 200 OK" +:+ CRLF
    +:+ "Content-Type: " +:+ getMimeType this file_path +:+ CRLF
    +:+ "Content-Length: " +:+ Str.of_nat file_size +:+ CRLF
    +:+ "Date: " +:+ getTimeString +:+ CRLF
    +:+ "Server: CPP-HTTP-Server/1.0" +:+ CRLF
    +:+ "Connection: close" +:+ CRLF +:+ CRLF.

Definition handleGetRequest (client_socket : Z) (path : string) : io unit :=
  let file_path :=
    web_root this +:+ (if String.eqb path "/" then "/index.html" else path) in
  canonical_path ← fs_canonical (web_root this);
  requested_path ← fs_canonical file_path;
  if bool_decide (Str.find requested_path canonical_path ≠ Some 0%nat) then
    sendError client_socket 403 "Forbidden"
  else
    file ← ifstream file_path;
    match file with
    | None => sendError client_socket 404 "Not Found"
    | Some contents =>
        let file_size := Str.length contents in
        let header_str := file_headers file_path file_size in
        send client_socket header_str;;
        IO (read_loop client_socket contents) (Returned ())
    end.

Definition method_not_supported_response : string :=
  "HTTP/1.1 405 Method Not Allowed" +:+ CRLF
    +:+ "Content-Type: text/plain" +:+ CRLF
    +:+ "Content-Length: 21" +:+ CRLF +:+ CRLF
    +:+ "Method Not Supported" +:+ LF.

Definition handleClient (client_socket : Z) (incoming : pending) : io unit :=
  let '(bytes_read, buffer) := read incoming BUFFER_SIZE in
  (if (0 <? bytes_read)%Z then
     let request := c_str buffer in
     let r := parse_request request in
     if String.eqb (method r) "GET" then
       handleGetRequest client_socket (path r)
     else
       send client_socket method_not_supported_response
   else mret ());;
  close client_socket.

End Handler.

(** ** A file tree to run the handler on

    A symlink-free tree given by the absolute paths of its directories and
    files, with the path resolution of [std::filesystem::canonical]: every
    component must exist, [.] and empty components are skipped, [..] goes
    up (and stays at the root).  A file has contents when the server may
    read it.  Paths are absolute.  The tree gives no contents for a
    directory, as the specification assumes; the examples below open
    regular files only. *)

Module FileTree.

Record t := { dirs : list string; files : list (string * option string) }.

Fixpoint split_slash (s : string) : list string :=
  match s with
  | EmptyString => [EmptyString]
  | String c rest =>
      if Ascii.eqb c "/" then EmptyString :: split_slash rest
      else match split_slash rest with
           | x :: xs => String c x :: xs
           | [] => [String c EmptyString]
           end
  end.

Definition render (stack : list string) : string :=
  match stack with
  | [] => "/"
  | _ => Str.concat ((fun c => "/" +:+ c) <$> stack)
  end.

Definition is_dir (tr : t) (p : string) : bool :=
  bool_decide (p = "/") || bool_decide (p ∈ dirs tr).

(** The entry of a file: [None] when there is no such file. *)
Definition file_at (tr : t) (p : string) : option (option string) :=
  match list_find (fun e => e.1 = p) (files tr) with
  | Some (_, e) => Some e.2
  | None => None
  end.

Fixpoint walk (tr : t) (stack : list string) (comps : list string)
  : option (list string) :=
  match comps with
  | [] => Some stack
  | c :: cs =>
      if bool_decide (c = EmptyString) || bool_decide (c = ".") then walk tr stack cs
      else if bool_decide (c = "..") then walk tr (removelast stack) cs
      else
        let stack' := stack ++ [c] in
        if is_dir tr (render stack') then walk tr stack' cs
        else match file_at tr (render stack'), cs with
             | Some _, [] => Some stack'
             | _, _ => None
             end
  end.

Definition resolve (tr : t) (p : string) : option string :=
  match p with
  | String "/" _ => render <$> walk tr [] (split_slash p)
  | _ => None
  end.

Definition fs (tr : t) : FileSystem :=
  {| canonical := resolve tr;
     open_read := fun p =>
       match resolve tr p with
       | Some c => match file_at tr c with
                   | Some (Some contents) => Some contents
                   | _ => None
                   end
       | None => None
       end |}.

End FileTree.

(** A document root [/srv/www] with a page and a file the server may not
    read, next to a directory whose name extends the root's, and a file
    outside. *)
Definition site : FileTree.t :=
  {| FileTree.dirs := ["/srv"; "/srv/www"; "/srv/www-secrets"; "/etc"];
     FileTree.files :=
       [("/srv/www/index.html", Some ("hello1234" +:+ LF));
        ("/srv/www/private.txt", None);
        ("/srv/www-secrets/key.txt", Some "secret");
        ("/etc/passwd", Some "root:x:0:0")] |}.

(** The same root with nothing in it. *)
Definition empty_site : FileTree.t :=
  {| FileTree.dirs := ["/srv"; "/srv/www"]; FileTree.files := [] |}.

Definition server : HTTPServer := HTTPServer_new 8080 "/srv/www".

(** Two times of day: Mon, 21 Oct 2024 07:28:00 GMT, and an hour later. *)
Definition a_date : Z := 1729495680.
Definition another_date : Z := 1729499280.

Definition serve (tr : FileTree.t) (request : string) : io unit :=
  handleClient server (FileTree.fs tr) a_date 4 (Recv request).

(** ** The specification's view of the code, for comparison *)

(** The mapping of the specification: extension (without the dot) to
    content type. *)
Definition spec_mime_table : list (string * string) :=
  [("html", "text/html"); ("css", "text/css"); ("js", "application/javascript");
   ("json", "application/json"); ("png", "image/png"); ("jpg", "image/jpeg");
   ("jpeg", "image/jpeg"); ("gif", "image/gif"); ("txt", "text/plain")].

Definition octet_stream : string := "application/octet-stream".

(** ASCII lower case, to say that two extensions differ in letter case only. *)
Definition to_lower (c : ascii) : ascii :=
  let n := nat_of_ascii c in
  if Nat.leb 65 n && Nat.leb n 90 then ascii_of_nat (n + 32) else c.

Fixpoint lower (s : string) : string :=
  match s with
  | EmptyString => EmptyString
  | String c rest => String (to_lower c) (lower rest)
  end.

(** The white-space separated tokens of a line. *)
Fixpoint tokens (s : string) : list string :=
  match s with
  | EmptyString => []
  | String c rest =>
      let ts := tokens rest in
      if isspace c then ts
      else match rest with
           | EmptyString => [String c EmptyString]
           | String d _ =>
               if isspace d then String c EmptyString :: ts
               else match ts with
                    | t :: ts' => String c t :: ts'
                    | [] => [String c EmptyString]
                    end
           end
  end.

(** What [handleClient] has parsed when it dispatches: nothing when the
    read fails or finds the end of the stream. *)
Definition request_of (incoming : pending) : option Request :=
  let '(bytes_read, buffer) := read incoming BUFFER_SIZE in
  if (0 <? bytes_read)%Z then Some (parse_request (c_str buffer)) else None.

(** The pieces the read loop sends for a file, as the specification
    describes them: together they are the file, none is empty or longer
    than the buffer, and all but the last fill the buffer. *)
Definition chunked (n : nat) (file : string) (chunks : list string) : Prop :=
  Str.concat chunks = file /\
  Forall (fun c => (0 < Str.length c <= n)%nat) chunks /\
  (forall i c, chunks !! i = Some c -> (S i < length chunks)%nat -> Str.length c = n).

(** Two messages that are the same, or differ in the value of one Date
    header only. *)
Definition same_except_date (d1 d2 s1 s2 : string) : Prop :=
  s1 = s2 \/
  exists before after,
    s1 = before +:+ "Date: " +:+ d1 +:+ CRLF +:+ after /\
    s2 = before +:+ "Date: " +:+ d2 +:+ CRLF +:+ after.

Inductive event_same_except_date (d1 d2 : string) : event -> event -> Prop :=
| same_open p :
    event_same_except_date d1 d2 (EvOpen p) (EvOpen p)
| same_send fd s1 s2 :
    same_except_date d1 d2 s1 s2 ->
    event_same_except_date d1 d2 (EvSend fd s1) (EvSend fd s2)
| same_close fd :
    event_same_except_date d1 d2 (EvClose fd) (EvClose fd).

(** The request line [handleClient] parses, when it parses one. *)
Definition request_line_of (incoming : pending) : option string :=
  let '(bytes_read, buffer) := read incoming BUFFER_SIZE in
  if (0 <? bytes_read)%Z then Some (getline (c_str buffer)) else None.


(** The path [handleGetRequest] opens for a request path. *)
Definition file_path_of (this : HTTPServer) (path : string) : string :=
  web_root this +:+ (if String.eqb path "/" then "/index.html" else path).

(** The characters of a line that are not white space, in order. *)
Fixpoint non_spaces (s : string) : string :=
  match s with
  | EmptyString => EmptyString
  | String c rest => if isspace c then non_spaces rest else String c (non_spaces rest)
  end.

(** * Properties *)

(** ** Facts about the string operations *)

#[local] Arguments String.append : simpl nomatch.

Section StrFacts.

Implicit Types s t p e : string.

Lemma append_assoc s t e : (s +:+ t) +:+ e = s +:+ (t +:+ e).
Proof. induction s as [|c s IH]; simpl; [reflexivity | by rewrite IH]. Qed.

Lemma length_append s t : Str.length (s +:+ t) = (Str.length s + Str.length t)%nat.
Proof. induction s as [|c s IH]; simpl; [reflexivity | by rewrite IH]. Qed.

Lemma starts_with_app p t : Str.starts_with p (p +:+ t) = true.
Proof. induction p as [|c p IH]; simpl; [reflexivity | by rewrite Ascii.eqb_refl]. Qed.

Lemma starts_with_inv p s : Str.starts_with p s = true -> exists t, s = p +:+ t.
Proof.
  revert s. induction p as [|c p IH]; intros s H.
  - by exists s.
  - destruct s as [|d s]; simpl in H; [discriminate|].
    destruct (Ascii.eqb_spec c d) as [->|]; [|discriminate].
    destruct (IH _ H) as [t ->]. by exists t.
Qed.

(** [find] returns position 0 exactly when the needle is an initial
    segment: this is the test [find(...) != 0] of the source. *)
Lemma find_zero s t : Str.find s t = Some 0%nat <-> Str.starts_with t s = true.
Proof.
  destruct s as [|c s]; simpl.
  - destruct (Str.starts_with t ""); split; congruence.
  - destruct (Str.starts_with t (String c s)); [done|].
    split; [|discriminate]. destruct (Str.find s t); discriminate.
Qed.

(** [find] is the search of [std::string::find]: the position it
    returns holds an occurrence, and no earlier position does. *)
Lemma find_least s t i :
  Str.find s t = Some i ->
  Str.starts_with t (Str.substr s i) = true /\
  forall j, (j < i)%nat -> Str.starts_with t (Str.substr s j) = false.
Proof.
  revert i. induction s as [|c s IH]; intros i; simpl.
  - destruct (Str.starts_with t "") eqn:E; [|discriminate].
    intros [= <-]. split; [done | lia].
  - destruct (Str.starts_with t (String c s)) eqn:E.
    + intros [= <-]. split; [done | lia].
    + destruct (Str.find s t) as [k|] eqn:F; [|discriminate].
      intros [= <-]. destruct (IH k eq_refl) as [Hk Hlt]. split; [done|].
      intros [|j] Hj; [done|]. apply Hlt. lia.
Qed.

Lemma find_last_of_None s c : Str.find_last_of s c = None <-> Str.mem c s = false.
Proof.
  induction s as [|a s IH]; simpl; [done|].
  destruct (Str.find_last_of s c).
  - destruct (Ascii.eqb a c); [done|]. split; [done|]. intros H.
    apply IH in H. discriminate.
  - destruct (Ascii.eqb a c); [done|]. split; [|done]. intros _. by apply IH.
Qed.

(** The last occurrence: a character followed by a tail without it. *)
Lemma find_last_of_app p c e :
  Str.mem c e = false -> Str.find_last_of (p +:+ String c e) c = Some (Str.length p).
Proof.
  intros He. induction p as [|a p IH]; simpl.
  - apply find_last_of_None in He. by rewrite He, Ascii.eqb_refl.
  - by rewrite IH.
Qed.

Lemma substr_app p s : Str.substr (p +:+ s) (Str.length p) = s.
Proof. induction p as [|a p IH]; simpl; [by destruct s | done]. Qed.

Lemma take_substr n s : Str.take n s +:+ Str.substr s n = s.
Proof.
  revert s. induction n as [|n IH]; intros [|c s]; simpl; try done.
  by rewrite IH.
Qed.

Lemma length_take_le n s : (Str.length (Str.take n s) <= n)%nat.
Proof.
  revert s. induction n as [|n IH]; intros [|c s]; simpl; try lia.
  specialize (IH s). lia.
Qed.

Lemma length_take n s :
  Str.length (Str.take n s) = Nat.min n (Str.length s).
Proof.
  revert s. induction n as [|n IH]; intros [|c s]; simpl; try done.
  by rewrite IH.
Qed.

Lemma substr_all n s : (Str.length s <= n)%nat -> Str.substr s n = "".
Proof.
  revert s. induction n as [|n IH]; intros [|c s]; simpl; try done; try lia.
  intros H. apply IH. lia.
Qed.

Lemma substr_shorter n a chunk s :
  Str.take (S n) s = String a chunk ->
  (Str.length (Str.substr s (S n)) < Str.length s)%nat.
Proof.
  destruct s as [|b s]; [discriminate|]. intros _. simpl.
  assert (H : forall k u, (Str.length (Str.substr u k) <= Str.length u)%nat).
  { induction k as [|k IH]; intros [|c u]; simpl; auto with arith. }
  specialize (H n s). lia.
Qed.

End StrFacts.

#[local] Arguments Str.take : simpl never.
#[local] Arguments Str.substr : simpl never.

(** ** Content types *)

Section Mime.

Variable port : Z.
Variable root : string.
Let this := HTTPServer_new port root.

Lemma getMimeType_no_dot path :
  Str.mem "." path = false -> getMimeType this path = octet_stream.
Proof.
  intros H. apply find_last_of_None in H. unfold getMimeType. by rewrite H.
Qed.

(** With a last dot, the key looked up is the dot and what follows it. *)
Lemma getMimeType_last_dot pre ext :
  Str.mem "." ext = false ->
  getMimeType this (pre +:+ "." +:+ ext) =
    default octet_stream (setupMimeTypes !! ("." +:+ ext)).
Proof.
  intros H. unfold getMimeType. simpl.
  rewrite (find_last_of_app pre "." ext H), substr_app.
  by destruct (setupMimeTypes !! String "." ext).
Qed.

Lemma setupMimeTypes_lookup ext ty :
  setupMimeTypes !! ("." +:+ ext) = Some ty <-> (ext, ty) ∈ spec_mime_table.
Proof.
  unfold setupMimeTypes, spec_mime_table. simpl. split.
  - intros H.
    repeat (apply lookup_insert_Some in H as [[[= <-] <-]|[_ H]];
            [set_solver|]).
    by rewrite lookup_empty in H.
  - intros H.
    repeat (apply elem_of_cons in H as [[= -> ->]|H]; [reflexivity|]).
    by apply elem_of_nil in H.
Qed.

Lemma setupMimeTypes_lookup_None ext :
  ext ∉ spec_mime_table.*1 -> setupMimeTypes !! ("." +:+ ext) = None.
Proof.
  intros H. destruct (setupMimeTypes !! ("." +:+ ext)) as [ty|] eqn:E; [|done].
  exfalso. apply H. apply setupMimeTypes_lookup in E.
  apply list_elem_of_fmap. by exists (ext, ty).
Qed.

(** Every key of the table is in lower case and free of slashes. *)
Lemma spec_mime_keys k :
  k ∈ spec_mime_table.*1 -> lower k = k /\ Str.mem "/" k = false.
Proof.
  unfold spec_mime_table. simpl. intros H.
  repeat (apply elem_of_cons in H as [->|H]; [by split|]).
  by apply elem_of_nil in H.
Qed.

End Mime.

(** C8. MIME lookup always returns a value and depends on the path only:
    when the path has no ['.'] the result is the octet-stream type; when
    [ext] is what follows the last ['.'], the result is the content type
    the table gives for [ext] (html, css, js, json, png, jpg, jpeg, gif,
    txt), and the octet-stream type when [ext] is not in the table. *)
Theorem getMimeType_table (port : Z) (root path : string) :
  let this := HTTPServer_new port root in
  (Str.mem "." path = false -> getMimeType this path = octet_stream) /\
  (forall pre ext,
     path = pre +:+ "." +:+ ext -> Str.mem "." ext = false ->
     (forall ty, (ext, ty) ∈ spec_mime_table -> getMimeType this path = ty) /\
     (ext ∉ spec_mime_table.*1 -> getMimeType this path = octet_stream)).
Proof.
  intros this. split; [apply getMimeType_no_dot|].
  intros pre ext -> Hext. subst this.
  rewrite getMimeType_last_dot by done. split.
  - intros ty Hty. apply setupMimeTypes_lookup in Hty. by rewrite Hty.
  - intros Hno. by rewrite setupMimeTypes_lookup_None.
Qed.

Lemma getMimeType_table_witness :
  getMimeType (HTTPServer_new 8080 "/srv/www") "/srv/www/index.html" = "text/html"
  /\ getMimeType (HTTPServer_new 8080 "/srv/www") "/srv/www/archive.tar" = octet_stream
  /\ getMimeType (HTTPServer_new 8080 "/srv/www") "/srv/www/Makefile" = octet_stream.
Proof.
  split; [|split].
  - apply (proj2 (getMimeType_table 8080 "/srv/www" "/srv/www/index.html")
             "/srv/www/index" "html"); [reflexivity | reflexivity |].
    unfold spec_mime_table. apply list_elem_of_here.
  - apply (proj2 (getMimeType_table 8080 "/srv/www" "/srv/www/archive.tar")
             "/srv/www/archive" "tar"); [reflexivity | reflexivity |].
    apply (proj1 (bool_decide_eq_false _)). reflexivity.
  - apply (proj1 (getMimeType_table 8080 "/srv/www" "/srv/www/Makefile")).
    reflexivity.
Defined.

(** C10. The extension is compared byte for byte, from the last ['.'] of
    the whole path: an extension that differs from a key of the table in
    letter case only, and a last ['.'] that lies in a directory component
    (a ['/'] follows it), both give the octet-stream type. *)
Theorem getMimeType_exact_match (port : Z) (root path pre ext : string) :
  let this := HTTPServer_new port root in
  path = pre +:+ "." +:+ ext -> Str.mem "." ext = false ->
  ((exists k, k ∈ spec_mime_table.*1 /\ lower ext = lower k /\ ext <> k) ->
   getMimeType this path = octet_stream) /\
  (Str.mem "/" ext = true -> getMimeType this path = octet_stream).
Proof.
  intros this -> Hext. subst this. rewrite getMimeType_last_dot by done.
  split.
  - intros (k & Hk & Hlow & Hne).
    rewrite setupMimeTypes_lookup_None; [done|]. intros Hin.
    apply spec_mime_keys in Hin as [Hin _]. apply spec_mime_keys in Hk as [Hk _].
    congruence.
  - intros Hslash. rewrite setupMimeTypes_lookup_None; [done|]. intros Hin.
    apply spec_mime_keys in Hin as [_ Hin]. congruence.
Qed.

Lemma getMimeType_exact_match_witness :
  getMimeType (HTTPServer_new 8080 "/srv/www") "/srv/www/page.HTML" = octet_stream
  /\ getMimeType (HTTPServer_new 8080 "/srv/www") "/srv/www/v1.html/readme" = octet_stream.
Proof.
  split.
  - apply (proj1 (getMimeType_exact_match 8080 "/srv/www" "/srv/www/page.HTML"
                    "/srv/www/page" "HTML" eq_refl eq_refl)).
    exists "html". split; [apply list_elem_of_here|]. split; [reflexivity | discriminate].
  - apply (proj2 (getMimeType_exact_match 8080 "/srv/www" "/srv/www/v1.html/readme"
                    "/srv/www/v1" "html/readme" eq_refl eq_refl)).
    reflexivity.
Defined.

(** ** The clock *)

Example getTimeString_epoch :
  getTimeString 0 = "Thu, 01 Jan 1970 00:00:00 GMT".
Proof. reflexivity. Qed.

Example getTimeString_2015 :
  getTimeString 1445412480 = "Wed, 21 Oct 2015 07:28:00 GMT".
Proof. reflexivity. Qed.

Example getTimeString_leap_day :
  getTimeString 951868799 = "Tue, 29 Feb 2000 23:59:59 GMT"
  /\ getTimeString 1709251199 = "Thu, 29 Feb 2024 23:59:59 GMT"
  /\ getTimeString 4102444800 = "Fri, 01 Jan 2100 00:00:00 GMT".
Proof. repeat split. Qed.

Example getTimeString_2038 :
  getTimeString 2147483647 = "Tue, 19 Jan 2038 03:14:07 GMT".
Proof. reflexivity. Qed.

(** ** The read loop *)

Lemma read_loop_eq fd file :
  read_loop fd file =
    match Str.take BUFFER_SIZE file with
    | EmptyString => []
    | String a chunk =>
        EvSend fd (String a chunk) :: read_loop fd (Str.substr file BUFFER_SIZE)
    end.
Proof.
  rewrite read_loop_equation_1. unfold read_loop_unfold_clause_1 at 1.
  destruct (inspect (Str.take BUFFER_SIZE file)) as [[|a c] H]; by rewrite H.
Qed.

(** The loop ends, and what it sends is the file cut into buffers. *)
Lemma read_loop_chunks fd file :
  exists chunks,
    read_loop fd file = EvSend fd <$> chunks /\ chunked BUFFER_SIZE file chunks.
Proof.
  remember (Str.length file) as n eqn:Hn. revert file Hn.
  induction (lt_wf n) as [n _ IH]. intros file ->.
  rewrite read_loop_eq.
  destruct (Str.take BUFFER_SIZE file) as [|a c] eqn:Ht.
  - exists []. split; [done|]. split; [|split].
    + destruct file; [done|]. discriminate.
    + constructor.
    + intros i c [=].
  - assert (Hlt : (Str.length (Str.substr file BUFFER_SIZE) < Str.length file)%nat).
    { eapply substr_shorter. exact Ht. }
    destruct (IH _ Hlt _ eq_refl) as (chunks & -> & Hcat & Hall & Hfull).
    exists (String a c :: chunks). split; [done|]. split; [|split].
    + cbn [Str.concat]. rewrite Hcat, <- Ht. apply take_substr.
    + constructor; [|done]. rewrite <- Ht. split; [rewrite Ht; simpl; lia|].
      apply length_take_le.
    + intros [|i] c' Hc Hi; cbn [lookup list_lookup length] in *.
      * injection Hc as <-. rewrite <- Ht, length_take.
        destruct chunks as [|c1 chunks]; [simpl in Hi; lia|].
        destruct (Nat.le_gt_cases BUFFER_SIZE (Str.length file)) as [|Hshort]; [lia|].
        rewrite substr_all in Hcat by lia.
        apply Forall_cons in Hall as [Hc1 _].
        assert (Hzero : Str.length (Str.concat (c1 :: chunks)) = 0%nat)
          by (by rewrite Hcat).
        cbn [Str.concat] in Hzero. rewrite length_append in Hzero. lia.
      * apply (Hfull i c' Hc). lia.
Qed.

(** A file of 5000 bytes goes out as 4096 and 904 bytes; a file of 8192
    bytes as two full buffers, with no empty piece after them. *)
Example read_loop_5000 :
  (fun e => match e with EvSend _ data => Str.length data | _ => 0%nat end)
    <$> read_loop 4 (String.string_of_list_ascii (replicate 5000 "a"%char))
  = [4096; 904]%nat.
Proof. vm_compute. reflexivity. Qed.

Example read_loop_8192 :
  (fun e => match e with EvSend _ data => Str.length data | _ => 0%nat end)
    <$> read_loop 4 (String.string_of_list_ascii (replicate (2 * 4096) "a"%char))
  = [4096; 4096]%nat.
Proof. vm_compute. reflexivity. Qed.

(** ** The handler, case by case *)

Lemma prefix_check q r :
  bool_decide (Str.find q r ≠ Some 0%nat) = negb (Str.starts_with r q).
Proof.
  destruct (Str.starts_with r q) eqn:E; simpl.
  - apply bool_decide_eq_false. intros H. apply H. by apply find_zero.
  - apply bool_decide_eq_true. intros H. apply find_zero in H. congruence.
Qed.

Lemma starts_with_iff p s : Str.starts_with p s = true <-> exists t, s = p +:+ t.
Proof.
  split; [apply starts_with_inv|]. intros [t ->]. apply starts_with_app.
Qed.

Section HandlerFacts.

Variable this : HTTPServer.
Variable os : FileSystem.
Variable now : Z.
Variable fd : Z.

(** Every way through [handleGetRequest]. *)
Lemma handleGetRequest_cases path :
  handleGetRequest this os now fd path =
    let file_path := file_path_of this path in
    match canonical os (web_root this) with
    | None => IO [] (Thrown (filesystem_error (web_root this)))
    | Some canonical_path =>
        match canonical os file_path with
        | None => IO [] (Thrown (filesystem_error file_path))
        | Some requested_path =>
            if Str.starts_with canonical_path requested_path then
              match open_read os file_path with
              | None =>
                  IO [EvOpen file_path;
                      EvSend fd (error_response now 404 "Not Found")]
                     (Returned ())
              | Some contents =>
                  IO (EvOpen file_path
                        :: EvSend fd (file_headers this now file_path
                                        (Str.length contents))
                        :: read_loop fd contents)
                     (Returned ())
              end
            else IO [EvSend fd (error_response now 403 "Forbidden")] (Returned ())
        end
    end.
Proof.
  unfold handleGetRequest, fs_canonical, file_path_of. cbv zeta.
  destruct (canonical os (web_root this)) as [rc|]; [|reflexivity].
  destruct (canonical os _) as [qc|]; [|reflexivity].
  unfold mbind, io_bind, mret, io_ret. cbn [outcome trace app].
  rewrite prefix_check.
  destruct (Str.starts_with rc qc); cbn [negb]; [|reflexivity].
  unfold ifstream. cbn [outcome trace app].
  destruct (open_read os _); reflexivity.
Qed.

(** Every way through [handleClient]: the [close] of line 85 is reached
    unless an exception leaves [handleGetRequest]. *)
Lemma handleClient_cases incoming :
  handleClient this os now fd incoming =
    match request_of incoming with
    | None => IO [EvClose fd] (Returned ())
    | Some r =>
        if String.eqb (method r) "GET" then
          let h := handleGetRequest this os now fd (path r) in
          match outcome h with
          | Returned _ => IO (trace h ++ [EvClose fd]) (Returned ())
          | Thrown e => IO (trace h) (Thrown e)
          end
        else IO [EvSend fd method_not_supported_response; EvClose fd] (Returned ())
    end.
Proof.
  unfold handleClient, request_of.
  destruct (read incoming BUFFER_SIZE) as [bytes_read buffer].
  destruct (0 <? bytes_read)%Z; [|reflexivity].
  destruct (String.eqb _ "GET"); [|reflexivity].
  unfold mbind, io_bind. cbv zeta.
  destruct (outcome (handleGetRequest _ _ _ _ _)); reflexivity.
Qed.

End HandlerFacts.

(** ** Responses *)




(** C3. A GET for a file that resolves under the root and opens is
    answered with a 200 header block whose Content-Length is the number of
    bytes of the file, followed by the file itself in pieces of at most
    4096 bytes, all full except possibly the last; then the connection is
    closed. *)
Theorem existing_file_served
    (this : HTTPServer) (os : FileSystem) (now : Z) (fd : Z)
    (incoming : pending) (r : Request)
    (canonical_path requested_path contents : string) :
  let file_path := file_path_of this (path r) in
  request_of incoming = Some r ->
  method r = "GET" ->
  canonical os (web_root this) = Some canonical_path ->
  canonical os file_path = Some requested_path ->
  (exists rest, requested_path = canonical_path +:+ rest) ->
  open_read os file_path = Some contents ->
  exists chunks,
    handleClient this os now fd incoming =
      IO (EvOpen file_path
            :: EvSend fd
                 ("HTTP/1.1 200 OK" +:+ CRLF
                    +:+ "Content-Type: " +:+ getMimeType this file_path +:+ CRLF
                    +:+ "Content-Length: " +:+ Str.of_nat (Str.length contents) +:+ CRLF
                    +:+ "Date: " +:+ strftime (gmtime now) +:+ CRLF
                    +:+ "Server: CPP-HTTP-Server/1.0" +:+ CRLF
                    +:+ "Connection: close" +:+ CRLF +:+ CRLF)
            :: (EvSend fd <$> chunks) ++ [EvClose fd])
         (Returned ())
    /\ Str.concat chunks = contents
    /\ Forall (fun c => (0 < Str.length c <= 4096)%nat) chunks
    /\ (forall i c, chunks !! i = Some c -> (S i < length chunks)%nat ->
                    Str.length c = 4096%nat).
Proof.
  intros file_path Hreq Hget Hroot Hfile Hin Hopen.
  destruct (read_loop_chunks fd contents) as (chunks & Hloop & Hcat & Hall & Hfull).
  exists chunks. split; [|by repeat split].
  rewrite handleClient_cases, Hreq, Hget.
  change ("GET" =? "GET")%string with true. cbv iota zeta.
  rewrite handleGetRequest_cases. cbv zeta. fold file_path.
  rewrite Hroot, Hfile.
  apply starts_with_iff in Hin. rewrite Hin, Hopen. cbn [outcome trace].
  rewrite Hloop. reflexivity.
Qed.

Lemma existing_file_served_witness :
  exists chunks,
    serve site ("GET /index.html HTTP/1.1" +:+ CRLF +:+ CRLF) =
      IO (EvOpen "/srv/www/index.html"
            :: EvSend 4
                 ("HTTP/1.1 200 OK" +:+ CRLF
                    +:+ "Content-Type: " +:+ "text/html" +:+ CRLF
                    +:+ "Content-Length: " +:+ "10" +:+ CRLF
                    +:+ "Date: " +:+ "Mon, 21 Oct 2024 07:28:00 GMT" +:+ CRLF
                    +:+ "Server: CPP-HTTP-Server/1.0" +:+ CRLF
                    +:+ "Connection: close" +:+ CRLF +:+ CRLF)
            :: (EvSend 4 <$> chunks) ++ [EvClose 4])
         (Returned ())
    /\ Str.concat chunks = "hello1234" +:+ LF
    /\ Forall (fun c => (0 < Str.length c <= 4096)%nat) chunks
    /\ (forall i c, chunks !! i = Some c -> (S i < length chunks)%nat ->
                    Str.length c = 4096%nat).
Proof.
  refine (existing_file_served server (FileTree.fs site) a_date 4
            (Recv ("GET /index.html HTTP/1.1" +:+ CRLF +:+ CRLF))
            {| method := "GET"; path := "/index.html"; protocol := "HTTP/1.1" |}
            "/srv/www" "/srv/www/index.html" ("hello1234" +:+ LF) _ _ _ _ _ _).
  - vm_compute. reflexivity.
  - reflexivity.
  - vm_compute. reflexivity.
  - vm_compute. reflexivity.
  - exists "/index.html". reflexivity.
  - vm_compute. reflexivity.
Defined.

(** C4. A request whose method token is not [GET] is answered, whatever
    its path, with the fixed 405 response: the body is the literal
    [Method Not Supported] and a newline, and the Content-Length written
    in the source, 21, is the length of that body. *)
Theorem other_method_not_allowed
    (this : HTTPServer) (os : FileSystem) (now : Z) (fd : Z)
    (incoming : pending) (r : Request) :
  request_of incoming = Some r ->
  method r <> "GET" ->
  let body := "Method Not Supported" +:+ LF in
  handleClient this os now fd incoming =
    IO [EvSend fd ("HTTP/1.1 405 Method Not Allowed" +:+ CRLF
                     +:+ "Content-Type: text/plain" +:+ CRLF
                     +:+ "Content-Length: " +:+ Str.of_nat (Str.length body)
                     +:+ CRLF +:+ CRLF
                     +:+ body);
        EvClose fd]
       (Returned ())
  /\ Str.length body = 21%nat.
Proof.
  intros Hreq Hmethod body. split; [|reflexivity].
  rewrite handleClient_cases, Hreq.
  apply String.eqb_neq in Hmethod. rewrite Hmethod. reflexivity.
Qed.

Lemma other_method_not_allowed_witness :
  serve site ("DELETE /index.html HTTP/1.1" +:+ CRLF +:+ CRLF) =
    IO [EvSend 4 method_not_supported_response; EvClose 4] (Returned ()).
Proof.
  refine (proj1 (other_method_not_allowed server (FileTree.fs site) a_date 4
                   (Recv ("DELETE /index.html HTTP/1.1" +:+ CRLF +:+ CRLF))
                   {| method := "DELETE"; path := "/index.html";
                      protocol := "HTTP/1.1" |} _ _)).
  - vm_compute. reflexivity.
  - discriminate.
Defined.

(** C7. A GET for [/] and a GET for [/index.html] are served from the same
    file path, so the two requests get the same response: the handler does
    the same things in both cases. *)
Theorem root_is_index
    (this : HTTPServer) (os : FileSystem) (now : Z) (fd : Z)
    (incoming1 incoming2 : pending) (r1 r2 : Request) :
  request_of incoming1 = Some r1 -> method r1 = "GET" -> path r1 = "/" ->
  request_of incoming2 = Some r2 -> method r2 = "GET" -> path r2 = "/index.html" ->
  file_path_of this (path r1) = file_path_of this (path r2)
  /\ handleClient this os now fd incoming1 = handleClient this os now fd incoming2.
Proof.
  intros Hreq1 Hget1 Hpath1 Hreq2 Hget2 Hpath2.
  assert (Hsame : file_path_of this (path r1) = file_path_of this (path r2)).
  { unfold file_path_of. rewrite Hpath1, Hpath2. reflexivity. }
  split; [exact Hsame|].
  rewrite !handleClient_cases, Hreq1, Hreq2, Hget1, Hget2.
  change ("GET" =? "GET")%string with true. cbv iota.
  rewrite !handleGetRequest_cases. cbv zeta. rewrite Hsame. reflexivity.
Qed.

Lemma root_is_index_witness :
  serve site ("GET / HTTP/1.1" +:+ CRLF +:+ CRLF) =
  serve site ("GET /index.html HTTP/1.1" +:+ CRLF +:+ CRLF).
Proof.
  refine (proj2 (root_is_index server (FileTree.fs site) a_date 4
                   (Recv ("GET / HTTP/1.1" +:+ CRLF +:+ CRLF))
                   (Recv ("GET /index.html HTTP/1.1" +:+ CRLF +:+ CRLF))
                   {| method := "GET"; path := "/"; protocol := "HTTP/1.1" |}
                   {| method := "GET"; path := "/index.html"; protocol := "HTTP/1.1" |}
                   _ _ _ _ _ _)).
  - vm_compute. reflexivity.
  - reflexivity.
  - reflexivity.
  - vm_compute. reflexivity.
  - reflexivity.
  - reflexivity.
Defined.

(** ** The Date header *)

Section Dates.

Variable this : HTTPServer.
Variables now1 now2 : Z.

Lemma error_response_dated code msg :
  same_except_date (getTimeString now1) (getTimeString now2)
    (error_response now1 code msg) (error_response now2 code msg).
Proof.
  right.
  exists ("HTTP/1.1 " +:+ Str.of_Z code +:+ " " +:+ msg +:+ CRLF
            +:+ "Content-Type: text/html" +:+ CRLF
            +:+ "Content-Length: " +:+ Str.of_nat (Str.length (error_body code msg))
            +:+ CRLF),
         ("Server: CPP-HTTP-Server/1.0" +:+ CRLF
            +:+ "Connection: close" +:+ CRLF +:+ CRLF
            +:+ error_body code msg).
  unfold error_response, getTimeString. cbv zeta.
  rewrite !append_assoc. split; reflexivity.
Qed.

Lemma file_headers_dated file_path file_size :
  same_except_date (getTimeString now1) (getTimeString now2)
    (file_headers this now1 file_path file_size)
    (file_headers this now2 file_path file_size).
Proof.
  right.
  exists ("HTTP/1.1 200 OK" +:+ CRLF
            +:+ "Content-Type: " +:+ getMimeType this file_path +:+ CRLF
            +:+ "Content-Length: " +:+ Str.of_nat file_size +:+ CRLF),
         ("Server: CPP-HTTP-Server/1.0" +:+ CRLF
            +:+ "Connection: close" +:+ CRLF +:+ CRLF).
  unfold file_headers, getTimeString.
  rewrite !append_assoc. split; reflexivity.
Qed.

Lemma events_same_refl (l : list event) :
  Forall2 (event_same_except_date (getTimeString now1) (getTimeString now2)) l l.
Proof.
  induction l as [|e l IH]; constructor; [|done].
  destruct e; constructor. by left.
Qed.

End Dates.

(** C9. Handling one request against one file system at two different
    times does the same things in the same order and ends the same way;
    each message sent is the same both times, except for the value of its
    Date header. *)
Theorem same_request_same_response
    (this : HTTPServer) (os : FileSystem) (fd : Z) (incoming : pending)
    (now1 now2 : Z) :
  outcome (handleClient this os now1 fd incoming) =
    outcome (handleClient this os now2 fd incoming)
  /\ Forall2 (event_same_except_date (getTimeString now1) (getTimeString now2))
       (trace (handleClient this os now1 fd incoming))
       (trace (handleClient this os now2 fd incoming)).
Proof.
  rewrite !handleClient_cases.
  destruct (request_of incoming) as [r|]; [|split; [done | apply events_same_refl]].
  destruct (String.eqb (method r) "GET"); [|split; [done | apply events_same_refl]].
  cbv zeta. rewrite !handleGetRequest_cases. cbv zeta.
  destruct (canonical os (web_root this)) as [rc|]; [|split; [done | constructor]].
  destruct (canonical os (file_path_of this (path r))) as [qc|];
    [|split; [done | constructor]].
  destruct (Str.starts_with rc qc).
  - destruct (open_read os (file_path_of this (path r))) as [contents|];
      cbn [outcome trace]; (split; [done|]).
    + cbn [app]. constructor; [constructor|].
      constructor; [constructor; apply file_headers_dated|].
      apply events_same_refl.
    + cbn [app]. constructor; [constructor|].
      constructor; [constructor; apply error_response_dated|].
      apply events_same_refl.
  - cbn [outcome trace app]. split; [done|].
    constructor; [constructor; apply error_response_dated|].
    apply events_same_refl.
Qed.

(** ** Parsing the request line *)

Example tokens_of_a_line :
  tokens ("  GET   /a b" +:+ String "009" "c d" +:+ String "013" "")
  = ["GET"; "/a"; "b"; "c"; "d"].
Proof. reflexivity. Qed.

Example parse_request_first_line_only :
  parse_request ("GET /a HTTP/1.1" +:+ CRLF +:+ "Host: example.org" +:+ CRLF)
  = {| method := "GET"; path := "/a"; protocol := "HTTP/1.1" |}.
Proof. reflexivity. Qed.

Lemma tokens_skipws s : tokens (skipws s) = tokens s.
Proof.
  induction s as [|c s IH]; [reflexivity|].
  cbn [skipws]. destruct (isspace c) eqn:E; [|reflexivity].
  rewrite IH. cbn [tokens]. by rewrite E.
Qed.

Lemma tokens_cons c rest :
  tokens (String c rest) =
    if isspace c then tokens rest
    else match rest with
         | EmptyString => [String c EmptyString]
         | String d _ =>
             if isspace d then String c EmptyString :: tokens rest
             else match tokens rest with
                  | t :: ts' => String c t :: ts'
                  | [] => [String c EmptyString]
                  end
         end.
Proof. reflexivity. Qed.

Lemma word_cons c rest :
  word (String c rest) = if isspace c then "" else String c (word rest).
Proof. reflexivity. Qed.

Lemma after_word_cons c rest :
  after_word (String c rest) = if isspace c then String c rest else after_word rest.
Proof. reflexivity. Qed.

(** A line that begins with a word: the word, then the tokens after it. *)
Lemma tokens_word c s :
  isspace c = false ->
  tokens (String c s) = word (String c s) :: tokens (after_word (String c s)).
Proof.
  revert c. induction s as [|d s IH]; intros c Hc.
  - rewrite tokens_cons, word_cons, after_word_cons, Hc. reflexivity.
  - rewrite tokens_cons, (word_cons c), (after_word_cons c), Hc.
    destruct (isspace d) eqn:Hd.
    + rewrite word_cons, after_word_cons, Hd. reflexivity.
    + rewrite (IH d Hd). reflexivity.
Qed.

(** One [>>] on a good stream takes the first token, if there is one. *)
Lemma extract_tokens u :
  let '(target, st) := extract (istringstream_of u) in
  match tokens u with
  | [] => target = "" /\ failbit st = true
  | t :: ts => target = t /\ failbit st = false /\ tokens (unread st) = ts
  end.
Proof.
  unfold extract, istringstream_of. cbn [failbit unread].
  rewrite <- (tokens_skipws u).
  assert (Hhead : match skipws u with
                  | "" => True
                  | String c _ => isspace c = false
                  end).
  { induction u as [|c u IH]; [done|]. cbn [skipws].
    destruct (isspace c) eqn:E; [exact IH | exact E]. }
  destruct (skipws u) as [|c rest]; [done|].
  rewrite (tokens_word c rest Hhead). done.
Qed.

Lemma extract_failed st :
  failbit st = true -> extract st = ("", st).
Proof. intros H. unfold extract. by rewrite H. Qed.

(** The three fields are the first three tokens of the first line; a
    field whose token is missing is empty. *)
Lemma parse_request_tokens request :
  let toks := tokens (getline request) in
  let r := parse_request request in
  method r = nth 0 toks "" /\ path r = nth 1 toks "" /\ protocol r = nth 2 toks "".
Proof.
  cbv zeta. unfold parse_request. cbv zeta.
  pose proof (extract_tokens (getline request)) as H1.
  destruct (extract (istringstream_of (getline request))) as [m st1].
  destruct (tokens (getline request)) as [|t1 ts1].
  { destruct H1 as [-> Hf]. rewrite !(extract_failed st1 Hf). done. }
  destruct H1 as (-> & Hf1 & Ht1).
  assert (Hst1 : st1 = istringstream_of (unread st1)).
  { destruct st1 as [u f]. cbn in *. by subst f. }
  rewrite Hst1. pose proof (extract_tokens (unread st1)) as H2.
  destruct (extract (istringstream_of (unread st1))) as [p st2].
  rewrite Ht1 in H2. destruct ts1 as [|t2 ts2].
  { destruct H2 as [-> Hf]. rewrite (extract_failed st2 Hf). done. }
  destruct H2 as (-> & Hf2 & Ht2).
  assert (Hst2 : st2 = istringstream_of (unread st2)).
  { destruct st2 as [u f]. cbn in *. by subst f. }
  rewrite Hst2. pose proof (extract_tokens (unread st2)) as H3.
  destruct (extract (istringstream_of (unread st2))) as [q st3].
  rewrite Ht2 in H3. destruct ts2 as [|t3 ts3].
  { by destruct H3 as [-> _]. }
  by destruct H3 as (-> & _ & _).
Qed.

Lemma request_of_line incoming line :
  request_line_of incoming = Some line ->
  exists r,
    request_of incoming = Some r
    /\ method r = nth 0 (tokens line) ""
    /\ path r = nth 1 (tokens line) ""
    /\ protocol r = nth 2 (tokens line) "".
Proof.
  unfold request_line_of, request_of.
  destruct (read incoming BUFFER_SIZE) as [bytes_read buffer].
  destruct (0 <? bytes_read)%Z; [|discriminate].
  intros [= <-]. eexists. split; [reflexivity|]. apply parse_request_tokens.
Qed.

(** How the two kinds of header block begin. *)
Lemma error_response_head now code msg :
  exists rest, error_response now code msg = "HTTP/1.1 " +:+ Str.of_Z code +:+ rest.
Proof. eexists. unfold error_response. reflexivity. Qed.

Lemma file_headers_head this now file_path file_size :
  exists rest, file_headers this now file_path file_size = "HTTP/1.1 200 OK" +:+ rest.
Proof. eexists. unfold file_headers. reflexivity. Qed.

(** ** Request lines with fewer than three tokens *)

(** C5, as stated, fails: the line [GET /index.html] has two tokens, the
    protocol field is left empty, and the request is served like any other
    GET, here with the file and not with a 404. *)
Lemma short_request_line_served :
  let incoming := Recv ("GET /index.html" +:+ CRLF) in
  (exists line,
     request_line_of incoming = Some line /\ tokens line = ["GET"; "/index.html"])
  /\ request_of incoming =
       Some {| method := "GET"; path := "/index.html"; protocol := "" |}
  /\ handleClient server (FileTree.fs site) a_date 4 incoming =
       IO [EvOpen "/srv/www/index.html";
           EvSend 4 (file_headers server a_date "/srv/www/index.html" 10);
           EvSend 4 ("hello1234" +:+ LF);
           EvClose 4]
          (Returned ())
  /\ ~ (exists now, EvSend 4 (error_response now 404 "Not Found")
                      ∈ trace (handleClient server (FileTree.fs site) a_date 4 incoming)).
Proof.
  cbv zeta. split; [|split; [|split]].
  - eexists. split; vm_compute; reflexivity.
  - vm_compute. reflexivity.
  - vm_compute. reflexivity.
  - intros [now H].
    assert (Hrun : handleClient server (FileTree.fs site) a_date 4
                     (Recv ("GET /index.html" +:+ CRLF)) =
                   IO [EvOpen "/srv/www/index.html";
                       EvSend 4 (file_headers server a_date "/srv/www/index.html" 10);
                       EvSend 4 ("hello1234" +:+ LF);
                       EvClose 4]
                      (Returned ())) by (vm_compute; reflexivity).
    rewrite Hrun in H. cbn [trace] in H.
    destruct (error_response_head now 404 "Not Found") as [rest404 H404].
    change (Str.of_Z 404) with "404" in H404. rewrite H404 in H.
    apply elem_of_cons in H as [[=]|H].
    apply elem_of_cons in H as [H|H].
    { destruct (file_headers_head server a_date "/srv/www/index.html" 10)
        as [rest200 H200].
      rewrite H200 in H. simpl in H. discriminate H. }
    apply elem_of_cons in H as [H|H].
    { simpl in H. discriminate H. }
    apply elem_of_cons in H as [[=]|H].
    by apply elem_of_nil in H.
Qed.

(** C5, amended. When the first line has fewer than three tokens the
    fields are the tokens that are there and the others are empty; the
    protocol field, empty, is not looked at.  The request is answered
    from the method and the path like any other: with the 405 response
    when the method is not [GET] (an empty line included), and for [GET]
    with a 404 when the path, possibly empty, resolves under the root to
    something that cannot be opened. *)
Theorem short_request_line_degrades
    (this : HTTPServer) (os : FileSystem) (now : Z) (fd : Z)
    (incoming : pending) (line : string) :
  request_line_of incoming = Some line ->
  (length (tokens line) < 3)%nat ->
  exists r,
    request_of incoming = Some r
    /\ method r = nth 0 (tokens line) ""
    /\ path r = nth 1 (tokens line) ""
    /\ protocol r = ""
    /\ (method r <> "GET" ->
        handleClient this os now fd incoming =
          IO [EvSend fd method_not_supported_response; EvClose fd] (Returned ()))
    /\ (method r = "GET" ->
        forall canonical_path requested_path,
          canonical os (web_root this) = Some canonical_path ->
          canonical os (file_path_of this (path r)) = Some requested_path ->
          (exists rest, requested_path = canonical_path +:+ rest) ->
          open_read os (file_path_of this (path r)) = None ->
          handleClient this os now fd incoming =
            IO [EvOpen (file_path_of this (path r));
                EvSend fd (error_response now 404 "Not Found");
                EvClose fd]
               (Returned ())).
Proof.
  intros Hline Hshort.
  destruct (request_of_line incoming line Hline) as (r & Hreq & Hm & Hp & Hproto).
  exists r. split; [exact Hreq|]. split; [exact Hm|]. split; [exact Hp|].
  split; [|split].
  - rewrite Hproto. apply nth_overflow. lia.
  - intros Hne. rewrite handleClient_cases, Hreq.
    apply String.eqb_neq in Hne. by rewrite Hne.
  - intros Hget rc qc Hroot Hfile Hin Hopen.
    rewrite handleClient_cases, Hreq, Hget.
    change ("GET" =? "GET")%string with true. cbv iota zeta.
    rewrite handleGetRequest_cases. cbv zeta. rewrite Hroot, Hfile.
    apply starts_with_iff in Hin. rewrite Hin, Hopen. reflexivity.
Qed.

Lemma short_request_line_degrades_witness :
  serve site ("POST" +:+ CRLF) =
    IO [EvSend 4 method_not_supported_response; EvClose 4] (Returned ())
  /\ serve site ("GET /private.txt" +:+ CRLF) =
       IO [EvOpen "/srv/www/private.txt";
           EvSend 4 (error_response a_date 404 "Not Found");
           EvClose 4]
          (Returned ()).
Proof.
  split.
  - destruct (short_request_line_degrades server (FileTree.fs site) a_date 4
                (Recv ("POST" +:+ CRLF)) ("POST" +:+ String "013" "")
                ltac:(vm_compute; reflexivity) ltac:(vm_compute; lia))
      as (r & Hreq & _ & _ & _ & H405 & _).
    injection Hreq as <-. apply H405. discriminate.
  - destruct (short_request_line_degrades server (FileTree.fs site) a_date 4
                (Recv ("GET /private.txt" +:+ CRLF))
                ("GET /private.txt" +:+ String "013" "")
                ltac:(vm_compute; reflexivity) ltac:(vm_compute; lia))
      as (r & Hreq & _ & _ & _ & _ & H404).
    injection Hreq as <-.
    apply (H404 eq_refl "/srv/www" "/srv/www/private.txt").
    + vm_compute. reflexivity.
    + vm_compute. reflexivity.
    + exists "/private.txt". reflexivity.
    + vm_compute. reflexivity.
Defined.

(** ** When canonicalization fails *)

(** [handleGetRequest] has no handler around the two calls of
    [std::filesystem::canonical]: when the second one throws, nothing has
    been sent, and the exception leaves [handleClient] before its
    [close]. *)
Lemma canonical_failure_escapes
    (this : HTTPServer) (os : FileSystem) (now : Z) (fd : Z)
    (incoming : pending) (r : Request) (canonical_path : string) :
  request_of incoming = Some r ->
  method r = "GET" ->
  canonical os (web_root this) = Some canonical_path ->
  canonical os (file_path_of this (path r)) = None ->
  handleClient this os now fd incoming =
    IO [] (Thrown (filesystem_error (file_path_of this (path r)))).
Proof.
  intros Hreq Hget Hroot Hfile.
  rewrite handleClient_cases, Hreq, Hget.
  change ("GET" =? "GET")%string with true. cbv iota zeta.
  rewrite handleGetRequest_cases. cbv zeta. rewrite Hroot, Hfile. reflexivity.
Qed.

(** X13. Whenever [handleClient] returns, the last thing it has done is to
    close the connection, and it has closed it once. *)
Lemma handleClient_returns_closed
    (this : HTTPServer) (os : FileSystem) (now : Z) (fd : Z)
    (incoming : pending) :
  outcome (handleClient this os now fd incoming) = Returned () ->
  exists before,
    trace (handleClient this os now fd incoming) = before ++ [EvClose fd]
    /\ forall fd', EvClose fd' ∉ before.
Proof.
  rewrite handleClient_cases.
  destruct (request_of incoming) as [r|].
  2:{ intros _. exists []. split; [done|]. intros fd' H. by apply elem_of_nil in H. }
  destruct (String.eqb (method r) "GET").
  2:{ intros _. exists [EvSend fd method_not_supported_response]. split; [done|].
      intros fd' H. apply elem_of_cons in H as [[=]|H]. by apply elem_of_nil in H. }
  cbv zeta. rewrite handleGetRequest_cases. cbv zeta.
  destruct (canonical os (web_root this)) as [rc|]; [|discriminate].
  destruct (canonical os (file_path_of this (path r))) as [qc|]; [|discriminate].
  destruct (Str.starts_with rc qc).
  - destruct (open_read os (file_path_of this (path r))) as [contents|];
      cbn [outcome trace]; intros _; eexists; (split; [reflexivity|]).
    + intros fd' H.
      apply elem_of_cons in H as [[=]|H]. apply elem_of_cons in H as [[=]|H].
      destruct (read_loop_chunks fd contents) as (chunks & Hloop & _).
      rewrite Hloop in H. apply list_elem_of_fmap in H as (c & [=] & _).
    + intros fd' H.
      apply elem_of_cons in H as [[=]|H]. apply elem_of_cons in H as [[=]|H].
      by apply elem_of_nil in H.
  - cbn [outcome trace]. intros _. eexists. split; [reflexivity|].
    intros fd' H. apply elem_of_cons in H as [[=]|H]. by apply elem_of_nil in H.
Qed.

(** A read that fails or finds the end of the stream: no response, and
    the close. *)
Lemma read_failure_closes_silently
    (this : HTTPServer) (os : FileSystem) (now : Z) (fd : Z)
    (incoming : pending) :
  ((read incoming BUFFER_SIZE).1 <= 0)%Z ->
  handleClient this os now fd incoming = IO [EvClose fd] (Returned ()).
Proof.
  intros H. rewrite handleClient_cases. unfold request_of.
  destruct (read incoming BUFFER_SIZE) as [bytes_read buffer]. cbn [fst] in H.
  destruct (Z.ltb_spec 0 bytes_read); [lia | reflexivity].
Qed.

(** C1. On an empty root, [GET /missing.txt] makes the canonicalization of
    [/srv/www/missing.txt] fail.  The handler then sends nothing (no 404)
    and the exception leaves [handleClient]. *)
Theorem missing_file_throws :
  serve empty_site ("GET /missing.txt HTTP/1.1" +:+ CRLF +:+ CRLF) =
    IO [] (Thrown (filesystem_error "/srv/www/missing.txt")).
Proof.
  apply (canonical_failure_escapes server (FileTree.fs empty_site) a_date 4
           (Recv ("GET /missing.txt HTTP/1.1" +:+ CRLF +:+ CRLF))
           {| method := "GET"; path := "/missing.txt"; protocol := "HTTP/1.1" |}
           "/srv/www");
    vm_compute; reflexivity.
Qed.

(** C6. When the read fails or finds nothing the handler closes the
    connection and sends nothing; but on a GET for a file that does not
    exist the handler is left by an exception and the connection is never
    closed. *)
Theorem missing_file_leaves_connection_open :
  handleClient server (FileTree.fs site) a_date 4 RecvError =
    IO [EvClose 4] (Returned ())
  /\ handleClient server (FileTree.fs site) a_date 4 (Recv "") =
       IO [EvClose 4] (Returned ())
  /\ (let h := serve site ("GET /missing.txt HTTP/1.1" +:+ CRLF +:+ CRLF) in
      outcome h = Thrown (filesystem_error "/srv/www/missing.txt")
      /\ forall fd, EvClose fd ∉ trace h).
Proof.
  split; [|split].
  - apply read_failure_closes_silently. vm_compute. discriminate.
  - apply read_failure_closes_silently. vm_compute. discriminate.
  - cbv zeta.
    assert (Hrun : serve site ("GET /missing.txt HTTP/1.1" +:+ CRLF +:+ CRLF) =
                   IO [] (Thrown (filesystem_error "/srv/www/missing.txt"))).
    { apply (canonical_failure_escapes server (FileTree.fs site) a_date 4
               (Recv ("GET /missing.txt HTTP/1.1" +:+ CRLF +:+ CRLF))
               {| method := "GET"; path := "/missing.txt"; protocol := "HTTP/1.1" |}
               "/srv/www");
        vm_compute; reflexivity. }
    rewrite Hrun. split; [reflexivity|]. intros fd H. by apply elem_of_nil in H.
Qed.

(** The known weakness of the prefix test: a sibling of the root whose
    name extends the root's passes it, and its file is served. *)
Example sibling_directory_passes :
  serve site ("GET /../www-secrets/key.txt HTTP/1.1" +:+ CRLF +:+ CRLF) =
    IO [EvOpen "/srv/www/../www-secrets/key.txt";
        EvSend 4 (file_headers server a_date "/srv/www/../www-secrets/key.txt" 6);
        EvSend 4 "secret";
        EvClose 4]
       (Returned ()).
Proof. vm_compute. reflexivity. Qed.

(** The Date header does change with the clock: the two runs below are
    not equal. *)
Example date_header_follows_clock :
  handleClient server (FileTree.fs site) a_date 4
    (Recv ("GET / HTTP/1.1" +:+ CRLF +:+ CRLF))
  <> handleClient server (FileTree.fs site) another_date 4
       (Recv ("GET / HTTP/1.1" +:+ CRLF +:+ CRLF)).
Proof. vm_compute. discriminate. Qed.

(** * Further properties of the handler *)

(** ** What the handler reads of a request *)

Lemma append_empty_r s : s +:+ "" = s.
Proof. induction s as [|c s IH]; simpl; [reflexivity | by rewrite IH]. Qed.

Lemma c_str_app_zero x y : c_str (x +:+ String zero y) = c_str x.
Proof.
  induction x as [|c x IH]; [reflexivity|].
  simpl. destruct (Ascii.eqb c zero); [reflexivity | by rewrite IH].
Qed.

(** The zero bytes that [read] leaves behind what it stored are not part
    of the request. *)
Lemma c_str_zeros x k :
  c_str (x +:+ String.string_of_list_ascii (replicate k zero)) = c_str x.
Proof.
  destruct k as [|k]; [simpl; by rewrite append_empty_r|].
  apply c_str_app_zero.
Qed.

#[local] Arguments Str.take : simpl nomatch.

Lemma take_app n a b :
  Str.take n (a +:+ b) =
    if (n <=? Str.length a)%nat then Str.take n a
    else a +:+ Str.take (n - Str.length a) b.
Proof.
  revert n. induction a as [|c a IH]; intros [|n]; simpl; try reflexivity.
  all: try (by destruct b).
  rewrite IH. destruct (n <=? Str.length a)%nat; reflexivity.
Qed.

#[local] Arguments Str.take : simpl never.

Lemma take_short n s : (Str.length s <= n)%nat -> Str.take n s = s.
Proof.
  intros H. rewrite <- (take_substr n s) at 2.
  by rewrite (substr_all n s H), append_empty_r.
Qed.

Lemma length_substr n s : Str.length (Str.substr s n) = (Str.length s - n)%nat.
Proof.
  revert s. induction n as [|n IH]; intros [|c s]; try reflexivity.
  change (Str.substr (String c s) (S n)) with (Str.substr s n).
  rewrite IH. reflexivity.
Qed.

(** The request the handler parses from what one [read] delivers. *)
Lemma request_of_Recv data :
  request_of (Recv data) =
    if decide (data = "") then None
    else Some (parse_request (c_str (Str.take BUFFER_SIZE data))).
Proof.
  unfold request_of, read. rewrite c_str_zeros, length_take.
  destruct data as [|c data]; [reflexivity|].
  destruct (decide _) as [|_]; [discriminate|].
  change (Str.length (String c data)) with (S (Str.length data)).
  assert (0 < BUFFER_SIZE)%nat by (unfold BUFFER_SIZE; lia).
  destruct (Z.ltb_spec 0 (Z.of_nat (BUFFER_SIZE `min` S (Str.length data))));
    [done | lia].
Qed.

(** The handler looks at what was received through [request_of] only. *)
Lemma handleClient_request_of this os now fd incoming1 incoming2 :
  request_of incoming1 = request_of incoming2 ->
  handleClient this os now fd incoming1 = handleClient this os now fd incoming2.
Proof. intros H. by rewrite !handleClient_cases, H. Qed.

Lemma parse_request_getline r1 r2 :
  getline r1 = getline r2 -> parse_request r1 = parse_request r2.
Proof. intros H. unfold parse_request. by rewrite H. Qed.

Lemma getline_c_str_app_newline x y :
  getline (c_str (x +:+ String "010" y)) = getline (c_str x).
Proof.
  induction x as [|c x IH]; simpl.
  - reflexivity.
  - destruct (Ascii.eqb c zero); [reflexivity|]. simpl.
    destruct (Ascii.eqb c "010"); [reflexivity | by rewrite IH].
Qed.

(** X1. The request ends at its first NUL byte: when a NUL lies within the
    buffer, what the client sent after it changes nothing in what the
    handler does. *)
Theorem request_cut_at_nul
    (this : HTTPServer) (os : FileSystem) (now : Z) (fd : Z) (a b : string) :
  (Str.length a < BUFFER_SIZE)%nat ->
  handleClient this os now fd (Recv (a +:+ String zero b)) =
  handleClient this os now fd (Recv (a +:+ String zero "")).
Proof.
  intros Ha. apply handleClient_request_of. rewrite !request_of_Recv.
  destruct (decide _) as [E|_]; [by destruct a|].
  destruct (decide _) as [E|_]; [by destruct a|].
  rewrite !take_app.
  destruct (Nat.leb_spec BUFFER_SIZE (Str.length a)); [lia|].
  destruct (BUFFER_SIZE - Str.length a)%nat as [|k] eqn:Hk; [lia|].
  change (Str.take (S k) (String zero b)) with (String zero (Str.take k b)).
  change (Str.take (S k) (String zero "")) with (String zero (Str.take k "")).
  by rewrite !c_str_app_zero.
Qed.

Lemma request_cut_at_nul_witness :
  serve site ("GET / HTTP/1.1" +:+ CRLF +:+ String zero "ignored") =
  serve site ("GET / HTTP/1.1" +:+ CRLF +:+ String zero "").
Proof.
  apply (request_cut_at_nul server (FileTree.fs site) a_date 4
           ("GET / HTTP/1.1" +:+ CRLF) "ignored").
  vm_compute. lia.
Defined.

(** X2. Only the first line of a request counts: two requests that fit in
    the buffer and agree up to their first newline are handled in the same
    way, whatever headers or body follow. *)
Theorem only_first_line_counts
    (this : HTTPServer) (os : FileSystem) (now : Z) (fd : Z)
    (line rest1 rest2 : string) :
  (Str.length (line +:+ LF +:+ rest1) < BUFFER_SIZE)%nat ->
  (Str.length (line +:+ LF +:+ rest2) < BUFFER_SIZE)%nat ->
  handleClient this os now fd (Recv (line +:+ LF +:+ rest1)) =
  handleClient this os now fd (Recv (line +:+ LF +:+ rest2)).
Proof.
  intros H1 H2. apply handleClient_request_of. rewrite !request_of_Recv.
  destruct (decide _) as [E|_]; [by destruct line|].
  destruct (decide _) as [E|_]; [by destruct line|].
  rewrite !take_short by lia. f_equal. apply parse_request_getline.
  change (LF +:+ rest1) with (String "010" rest1).
  change (LF +:+ rest2) with (String "010" rest2).
  by rewrite !getline_c_str_app_newline.
Qed.

Lemma only_first_line_counts_witness :
  serve site ("GET / HTTP/1.1" +:+ String "013" "" +:+ LF
                +:+ "Host: example.org" +:+ CRLF +:+ CRLF) =
  serve site ("GET / HTTP/1.1" +:+ String "013" "" +:+ LF +:+ "").
Proof.
  apply (only_first_line_counts server (FileTree.fs site) a_date 4
           ("GET / HTTP/1.1" +:+ String "013" "")
           ("Host: example.org" +:+ CRLF +:+ CRLF) "");
    vm_compute; lia.
Defined.

(** ** The fields of the request line *)

Lemma tokens_no_space s :
  Forall (fun t => t <> "" /\ forall c, Str.mem c t = true -> isspace c = false)
         (tokens s).
Proof.
  induction s as [|c s IH]; [constructor|].
  rewrite tokens_cons. destruct (isspace c) eqn:Hc; [exact IH|].
  assert (Hone : (fun t => t <> "" /\ forall c, Str.mem c t = true -> isspace c = false)
                   (String c "")).
  { split; [discriminate|]. intros d. simpl.
    destruct (Ascii.eqb_spec c d) as [<-|]; [done | discriminate]. }
  destruct s as [|d s']; [by constructor|].
  destruct (isspace d); [by constructor|].
  destruct (tokens (String d s')) as [|t ts]; [by constructor|].
  apply Forall_cons in IH as [[_ Ht] Hts].
  constructor; [|done]. split; [discriminate|].
  intros e. simpl. destruct (Ascii.eqb_spec c e) as [<-|]; [done | apply Ht].
Qed.

Lemma concat_tokens s : Str.concat (tokens s) = non_spaces s.
Proof.
  induction s as [|c s IH]; [reflexivity|].
  rewrite tokens_cons. cbn [non_spaces]. destruct (isspace c); [exact IH|].
  rewrite <- IH. destruct s as [|d s']; [reflexivity|].
  destruct (isspace d); [reflexivity|].
  destruct (tokens (String d s')) as [|t ts]; reflexivity.
Qed.

(** X3. For every request, the method, the path and the protocol are the
    first, second and third token of the first line (empty when there is
    no such token); a fourth token and what follows are dropped.  The
    tokens are the pieces of the line between white space: none is empty,
    none holds a white-space character, and together they are the other
    characters of the line, in order. *)
Theorem fields_are_first_tokens (request : string) :
  let toks := tokens (getline request) in
  let r := parse_request request in
  method r = nth 0 toks "" /\ path r = nth 1 toks "" /\ protocol r = nth 2 toks ""
  /\ Forall (fun t => t <> "" /\ forall c, Str.mem c t = true -> isspace c = false)
            toks
  /\ Str.concat toks = non_spaces (getline request).
Proof.
  cbv zeta. pose proof (parse_request_tokens request) as (Hm & Hp & Hq).
  split; [exact Hm|]. split; [exact Hp|]. split; [exact Hq|].
  split; [apply tokens_no_space | apply concat_tokens].
Qed.

(** X4. The protocol field plays no role: two requests with the same
    method and the same path are handled in the same way. *)
Theorem protocol_is_ignored
    (this : HTTPServer) (os : FileSystem) (now : Z) (fd : Z)
    (incoming1 incoming2 : pending) (r1 r2 : Request) :
  request_of incoming1 = Some r1 ->
  request_of incoming2 = Some r2 ->
  method r1 = method r2 ->
  path r1 = path r2 ->
  handleClient this os now fd incoming1 = handleClient this os now fd incoming2.
Proof.
  intros H1 H2 Hm Hp. rewrite !handleClient_cases, H1, H2, Hm, Hp. reflexivity.
Qed.

Lemma protocol_is_ignored_witness :
  serve site ("GET /index.html HTTP/1.0" +:+ CRLF) =
  serve site ("GET /index.html gopher" +:+ CRLF).
Proof.
  refine (protocol_is_ignored server (FileTree.fs site) a_date 4
            (Recv ("GET /index.html HTTP/1.0" +:+ CRLF))
            (Recv ("GET /index.html gopher" +:+ CRLF))
            {| method := "GET"; path := "/index.html"; protocol := "HTTP/1.0" |}
            {| method := "GET"; path := "/index.html"; protocol := "gopher" |}
            _ _ _ _); vm_compute; reflexivity.
Defined.

(** ** Every run of the handler *)

(** X5. The handler is left by an exception exactly when the method is
    [GET] and one of the two canonicalizations fails: that of the document
    root, whatever the path, or else that of the requested file.  Nothing
    has been sent or closed by then. *)
Theorem handler_throws_iff
    (this : HTTPServer) (os : FileSystem) (now : Z) (fd : Z)
    (incoming : pending) (e : exn) :
  let h := handleClient this os now fd incoming in
  (outcome h = Thrown e <->
   exists r,
     request_of incoming = Some r /\ method r = "GET" /\
     (canonical os (web_root this) = None /\ e = filesystem_error (web_root this)
      \/ is_Some (canonical os (web_root this)) /\
         canonical os (file_path_of this (path r)) = None /\
         e = filesystem_error (file_path_of this (path r))))
  /\ (outcome h = Thrown e -> trace h = []).
Proof.
  cbv zeta. rewrite handleClient_cases.
  destruct (request_of incoming) as [r|].
  2:{ split; [|done]. split; [done|]. by intros (r & [=] & _). }
  destruct (String.eqb_spec (method r) "GET") as [Hget|Hne].
  2:{ split; [|done]. split; [done|]. intros (r' & [= <-] & Hget & _). done. }
  cbv zeta. rewrite handleGetRequest_cases. cbv zeta.
  destruct (canonical os (web_root this)) as [rc|].
  - destruct (canonical os (file_path_of this (path r))) as [qc|] eqn:Hq.
    + split.
      * split.
        -- destruct (Str.starts_with rc qc); [destruct (open_read os _)|]; discriminate.
        -- intros (r' & [= <-] & _ & [[[=] _]|(_ & Hnone & _)]). congruence.
      * destruct (Str.starts_with rc qc); [destruct (open_read os _)|]; discriminate.
    + cbn [outcome trace]. split; [|done]. split.
      * intros [= <-]. exists r. repeat split; try done. right. by repeat split.
      * intros (r' & [= <-] & _ & [[[=] _]|(_ & _ & ->)]). done.
  - cbn [outcome trace]. split; [|done]. split.
    + intros [= <-]. exists r. repeat split; try done. by left.
    + intros (r' & [= <-] & _ & [[_ ->]|([? [=]] & _)]). done.
Qed.

Lemma handler_throws_iff_witness :
  outcome (serve site ("GET /../../nowhere HTTP/1.1" +:+ CRLF)) =
    Thrown (filesystem_error "/srv/www/../../nowhere").
Proof.
  apply (proj1 (handler_throws_iff server (FileTree.fs site) a_date 4
                  (Recv ("GET /../../nowhere HTTP/1.1" +:+ CRLF))
                  (filesystem_error "/srv/www/../../nowhere"))).
  exists {| method := "GET"; path := "/../../nowhere"; protocol := "HTTP/1.1" |}.
  split; [vm_compute; reflexivity|]. split; [reflexivity|].
  right. split; [by exists "/srv/www"|]. split; vm_compute; reflexivity.
Defined.

(** X6. The 404 of the source: a GET whose file path canonicalizes to a
    place that begins with the canonical root, and which cannot be opened,
    is answered with the 404 page, whose body has 48 bytes, and the
    connection is closed. *)
Theorem unopenable_file_not_found
    (this : HTTPServer) (os : FileSystem) (now : Z) (fd : Z)
    (incoming : pending) (r : Request) (canonical_path requested_path : string) :
  let file_path := file_path_of this (path r) in
  request_of incoming = Some r ->
  method r = "GET" ->
  canonical os (web_root this) = Some canonical_path ->
  canonical os file_path = Some requested_path ->
  (exists rest, requested_path = canonical_path +:+ rest) ->
  open_read os file_path = None ->
  handleClient this os now fd incoming =
    IO [EvOpen file_path;
        EvSend fd ("HTTP/1.1 404 Not Found" +:+ CRLF
                     +:+ "Content-Type: text/html" +:+ CRLF
                     +:+ "Content-Length: 48" +:+ CRLF
                     +:+ "Date: " +:+ strftime (gmtime now) +:+ CRLF
                     +:+ "Server: CPP-HTTP-Server/1.0" +:+ CRLF
                     +:+ "Connection: close" +:+ CRLF +:+ CRLF
                     +:+ "<html><body><h1>404 Not Found</h1></body></html>");
        EvClose fd]
       (Returned ())
  /\ Str.length "<html><body><h1>404 Not Found</h1></body></html>" = 48%nat.
Proof.
  intros file_path Hreq Hget Hroot Hfile Hin Hopen. split; [|reflexivity].
  rewrite handleClient_cases, Hreq, Hget.
  change ("GET" =? "GET")%string with true. cbv iota zeta.
  rewrite handleGetRequest_cases. cbv zeta. fold file_path.
  rewrite Hroot, Hfile.
  apply starts_with_iff in Hin. rewrite Hin, Hopen. reflexivity.
Qed.

Lemma unopenable_file_not_found_witness :
  trace (serve site ("GET /private.txt HTTP/1.1" +:+ CRLF)) =
    [EvOpen "/srv/www/private.txt";
     EvSend 4 (error_response a_date 404 "Not Found");
     EvClose 4].
Proof.
  refine (f_equal trace
            (proj1 (unopenable_file_not_found server (FileTree.fs site) a_date 4
                      (Recv ("GET /private.txt HTTP/1.1" +:+ CRLF))
                      {| method := "GET"; path := "/private.txt";
                         protocol := "HTTP/1.1" |}
                      "/srv/www" "/srv/www/private.txt" _ _ _ _ _ _))).
  - vm_compute. reflexivity.
  - reflexivity.
  - vm_compute. reflexivity.
  - vm_compute. reflexivity.
  - exists "/private.txt". reflexivity.
  - vm_compute. reflexivity.
Defined.

(** X7. The handler opens at most one file, before it sends anything, and
    only for a GET whose file path canonicalizes to a place that begins
    with the canonical root; the file is opened under the path built from
    the request, not under its canonical name. *)
Theorem opens_only_inside_root
    (this : HTTPServer) (os : FileSystem) (now : Z) (fd : Z)
    (incoming : pending) (p : string) :
  EvOpen p ∈ trace (handleClient this os now fd incoming) ->
  exists r canonical_path requested_path,
    request_of incoming = Some r /\ method r = "GET"
    /\ p = file_path_of this (path r)
    /\ canonical os (web_root this) = Some canonical_path
    /\ canonical os p = Some requested_path
    /\ (exists rest, requested_path = canonical_path +:+ rest)
    /\ exists after, trace (handleClient this os now fd incoming) = EvOpen p :: after
                     /\ forall q, EvOpen q ∉ after.
Proof.
  rewrite handleClient_cases.
  destruct (request_of incoming) as [r|].
  2:{ cbn [trace]. intros H. apply elem_of_cons in H as [[=]|H].
      by apply elem_of_nil in H. }
  destruct (String.eqb_spec (method r) "GET") as [Hget|_].
  2:{ cbn [trace]. intros H. apply elem_of_cons in H as [[=]|H].
      apply elem_of_cons in H as [[=]|H]. by apply elem_of_nil in H. }
  cbv zeta. rewrite handleGetRequest_cases. cbv zeta.
  destruct (canonical os (web_root this)) as [rc|].
  2:{ cbn [outcome trace]. intros H. by apply elem_of_nil in H. }
  destruct (canonical os (file_path_of this (path r))) as [qc|] eqn:Hq.
  2:{ cbn [outcome trace]. intros H. by apply elem_of_nil in H. }
  destruct (Str.starts_with rc qc) eqn:Hin.
  2:{ cbn [outcome trace app]. intros H. apply elem_of_cons in H as [[=]|H].
      apply elem_of_cons in H as [[=]|H]. by apply elem_of_nil in H. }
  apply starts_with_iff in Hin.
  assert (Hshape : forall tl,
            (forall q, EvOpen q ∉ tl) ->
            EvOpen p ∈ EvOpen (file_path_of this (path r)) :: tl ->
            p = file_path_of this (path r)).
  { intros tl Htl H. apply elem_of_cons in H as [[=]|H]; [done|]. by apply Htl in H. }
  destruct (open_read os (file_path_of this (path r))) as [contents|];
    cbn [outcome trace app].
  - destruct (read_loop_chunks fd contents) as (chunks & Hloop & _).
    assert (Hno : forall q, EvOpen q ∉
              EvSend fd (file_headers this now (file_path_of this (path r))
                                      (Str.length contents))
                :: read_loop fd contents ++ [EvClose fd]).
    { intros q H. apply elem_of_cons in H as [[=]|H].
      apply elem_of_app in H as [H|H].
      - rewrite Hloop in H. apply list_elem_of_fmap in H as (c & [=] & _).
      - apply elem_of_cons in H as [[=]|H]. by apply elem_of_nil in H. }
    intros H. apply (Hshape _ Hno) in H. subst p.
    exists r, rc, qc. repeat split; try done. eexists. split; [reflexivity | done].
  - assert (Hno : forall q, EvOpen q ∉
              [EvSend fd (error_response now 404 "Not Found"); EvClose fd]).
    { intros q H. apply elem_of_cons in H as [[=]|H].
      apply elem_of_cons in H as [[=]|H]. by apply elem_of_nil in H. }
    intros H. apply (Hshape _ Hno) in H. subst p.
    exists r, rc, qc. repeat split; try done. eexists. split; [reflexivity | done].
Qed.

Lemma opens_only_inside_root_witness :
  exists r canonical_path requested_path,
    request_of (Recv ("GET / HTTP/1.1" +:+ CRLF)) = Some r /\ method r = "GET"
    /\ "/srv/www/index.html" = file_path_of server (path r)
    /\ canonical (FileTree.fs site) (web_root server) = Some canonical_path
    /\ canonical (FileTree.fs site) "/srv/www/index.html" = Some requested_path
    /\ (exists rest, requested_path = canonical_path +:+ rest)
    /\ exists after,
         trace (serve site ("GET / HTTP/1.1" +:+ CRLF))
           = EvOpen "/srv/www/index.html" :: after
         /\ forall q, EvOpen q ∉ after.
Proof.
  apply (opens_only_inside_root server (FileTree.fs site) a_date 4
           (Recv ("GET / HTTP/1.1" +:+ CRLF)) "/srv/www/index.html").
  replace (trace (handleClient server (FileTree.fs site) a_date 4
                    (Recv ("GET / HTTP/1.1" +:+ CRLF))))
    with [EvOpen "/srv/www/index.html";
          EvSend 4 (file_headers server a_date "/srv/www/index.html" 10);
          EvSend 4 ("hello1234" +:+ LF); EvClose 4]
    by (vm_compute; reflexivity).
  apply list_elem_of_here.
Defined.

Lemma handleClient_returns_closed_witness :
  exists before,
    trace (serve site ("DELETE / HTTP/1.1" +:+ CRLF)) = before ++ [EvClose 4]
    /\ forall fd', EvClose fd' ∉ before.
Proof.
  apply (handleClient_returns_closed server (FileTree.fs site) a_date 4
           (Recv ("DELETE / HTTP/1.1" +:+ CRLF))).
  vm_compute. reflexivity.
Defined.

(** ** The read loop, piece by piece *)

(** X9. The read loop sends a file buffer by buffer: a first part of
    exactly 4096 bytes goes out in one send and the loop goes on with the
    rest; a file of 1 to 4096 bytes goes out in one send; for an empty
    file nothing is sent. *)
Theorem read_loop_app (fd : Z) (a b : string) :
  (Str.length a = BUFFER_SIZE -> read_loop fd (a +:+ b) = EvSend fd a :: read_loop fd b)
  /\ ((0 < Str.length a <= BUFFER_SIZE)%nat -> read_loop fd a = [EvSend fd a])
  /\ read_loop fd "" = [].
Proof.
  assert (Hempty : read_loop fd "" = []) by (by rewrite read_loop_eq).
  split; [|split; [|done]].
  - intros Ha. rewrite read_loop_eq, take_app.
    rewrite (proj2 (Nat.leb_le _ _)) by lia.
    rewrite take_short by lia. rewrite <- Ha, substr_app.
    destruct a as [|c a]; [discriminate Ha | reflexivity].
  - intros Ha. rewrite read_loop_eq, take_short by lia.
    rewrite substr_all by lia. rewrite Hempty.
    destruct a as [|c a]; [simpl in Ha; lia | reflexivity].
Qed.

Lemma read_loop_app_witness :
  read_loop 4 (String.string_of_list_ascii (replicate 4096 "a"%char) +:+ "tail") =
    [EvSend 4 (String.string_of_list_ascii (replicate 4096 "a"%char));
     EvSend 4 "tail"].
Proof.
  rewrite (proj1 (read_loop_app 4 (String.string_of_list_ascii (replicate 4096 "a"%char))
                    "tail"))
    by (vm_compute; reflexivity).
  rewrite (proj1 (proj2 (read_loop_app 4 "tail" "")))
    by (vm_compute; lia).
  reflexivity.
Defined.

(** X10. The number of sends for the body of a file of [n] bytes is [n]
    divided by 4096, rounded up. *)
Theorem read_loop_count (fd : Z) (file : string) :
  Z.of_nat (length (read_loop fd file)) = ((Z.of_nat (Str.length file) + 4095) / 4096)%Z.
Proof.
  remember (Str.length file) as n eqn:Hn. revert file Hn.
  induction (lt_wf n) as [n _ IH]. intros file ->.
  rewrite read_loop_eq.
  destruct (Str.take BUFFER_SIZE file) as [|a c] eqn:Ht.
  - destruct file; [reflexivity | discriminate].
  - assert (Hlt : (Str.length (Str.substr file BUFFER_SIZE) < Str.length file)%nat).
    { eapply substr_shorter. exact Ht. }
    cbn [length]. rewrite Nat2Z.inj_succ, (IH _ Hlt _ eq_refl), length_substr.
    assert (HB : Z.of_nat BUFFER_SIZE = 4096%Z) by reflexivity.
    assert (0 < Str.length file)%nat by lia.
    destruct (Nat.le_gt_cases (Str.length file) BUFFER_SIZE).
    + replace (Str.length file - BUFFER_SIZE)%nat with 0%nat by lia.
      change ((Z.of_nat 0 + 4095) / 4096)%Z with 0%Z.
      apply Z.div_unique with (r := (Z.of_nat (Str.length file) - 1)%Z); lia.
    + rewrite Nat2Z.inj_sub by lia. rewrite HB.
      replace (Z.of_nat (Str.length file) + 4095)%Z
        with ((Z.of_nat (Str.length file) - 4096 + 4095) + 1 * 4096)%Z by lia.
      rewrite Z.div_add by lia. lia.
Qed.

(** ** Content type and the document root *)

Lemma mem_last_split c s :
  Str.mem c s = true ->
  exists pre ext, s = pre +:+ String c ext /\ Str.mem c ext = false.
Proof.
  induction s as [|a s IH]; [discriminate|]. intros H.
  destruct (Str.mem c s) eqn:E.
  - destruct (IH eq_refl) as (pre & ext & -> & Hext).
    by exists (String a pre), ext.
  - simpl in H. rewrite E in H.
    destruct (Ascii.eqb_spec a c) as [->|]; [|discriminate].
    by exists "", s.
Qed.

Lemma mem_app c s t : Str.mem c (s +:+ t) = Str.mem c s || Str.mem c t.
Proof.
  induction s as [|a s IH]; simpl; [reflexivity|].
  destruct (Ascii.eqb a c); [reflexivity | exact IH].
Qed.

(** X11. The content type of a served file is looked up on the document
    root followed by the request path, yet the root does not change it for
    the usual paths: a request path with a dot gets the type of the path
    alone; [/] gets [text/html]; another path that has a slash and no dot
    gets the octet-stream type, even when the root has a dot, as the
    default root has. *)
Theorem content_type_ignores_root (port : Z) (root path : string) :
  let this := HTTPServer_new port root in
  (Str.mem "." path = true ->
   getMimeType this (file_path_of this path) = getMimeType this path)
  /\ (path = "/" -> getMimeType this (file_path_of this path) = "text/html")
  /\ (path <> "/" -> Str.mem "." path = false -> Str.mem "/" path = true ->
      getMimeType this (file_path_of this path) = octet_stream).
Proof.
  cbv zeta. split; [|split].
  - intros Hdot. unfold file_path_of.
    destruct (String.eqb_spec path "/") as [->|_]; [discriminate|].
    destruct (mem_last_split _ _ Hdot) as (pre & ext & -> & Hext).
    cbn [web_root HTTPServer_new]. rewrite <- append_assoc.
    change (String "." ext) with ("." +:+ ext).
    by rewrite !getMimeType_last_dot.
  - intros ->. unfold file_path_of. rewrite String.eqb_refl.
    cbn [web_root HTTPServer_new].
    change "/index.html" with ("/index" +:+ "." +:+ "html").
    rewrite <- append_assoc. by rewrite getMimeType_last_dot.
  - intros Hne Hdot Hslash. unfold file_path_of. cbn [web_root HTTPServer_new].
    destruct (String.eqb_spec path "/") as [->|_]; [done|].
    destruct (Str.mem "." root) eqn:Hroot.
    + destruct (mem_last_split _ _ Hroot) as (pre & ext & -> & Hext).
      rewrite append_assoc.
      change (String "." ext +:+ path) with ("." +:+ (ext +:+ path)).
      rewrite getMimeType_last_dot by (by rewrite mem_app, Hext, Hdot).
      rewrite setupMimeTypes_lookup_None; [done|]. intros Hin.
      apply spec_mime_keys in Hin as [_ Hin].
      rewrite mem_app, Hslash, orb_true_r in Hin. discriminate.
    + apply getMimeType_no_dot. by rewrite mem_app, Hroot, Hdot.
Qed.

Lemma content_type_ignores_root_witness :
  getMimeType (HTTPServer_new 8080 "./www") "./www/css/site.css" = "text/css"
  /\ getMimeType (HTTPServer_new 8080 "./www") "./www/index.html" = "text/html"
  /\ getMimeType (HTTPServer_new 8080 "./www") "./www/README" = octet_stream.
Proof.
  pose proof (content_type_ignores_root 8080 "./www") as H.
  split; [|split].
  - exact (proj1 (H "/css/site.css") eq_refl).
  - exact (proj1 (proj2 (H "/")) eq_refl).
  - apply (proj2 (proj2 (H "/README"))); [discriminate | reflexivity | reflexivity].
Defined.

(** ** The width of the date *)

Lemma gmtime_fields t :
  (0 <= t < 253402300800)%Z ->
  let r := gmtime t in
  (0 <= tm_sec r <= 59 /\ 0 <= tm_min r <= 59 /\ 0 <= tm_hour r <= 23 /\
   1 <= tm_mday r <= 31 /\ 0 <= tm_mon r <= 11 /\
   1970 <= tm_year r + 1900 <= 9999 /\ 0 <= tm_wday r <= 6)%Z.
Proof.
  intros Ht. unfold gmtime. cbv zeta.
  cbn [tm_sec tm_min tm_hour tm_mday tm_mon tm_year tm_wday].
  set (days := (t / 86400)%Z).
  assert (Hdays : (0 <= days < 2932897)%Z)
    by (subst days; Z.to_euclidean_division_equations; lia).
  set (secs := (t mod 86400)%Z).
  assert (Hsecs : (0 <= secs < 86400)%Z) by (subst secs; apply Z.mod_pos_bound; lia).
  clearbody days secs. clear Ht t.
  set (z := (days + 719468)%Z).
  set (era := (z / 146097)%Z).
  set (doe := (z - era * 146097)%Z).
  set (yoe := ((doe - doe / 1460 + doe / 36524 - doe / 146096) / 365)%Z).
  set (doy := (doe - (365 * yoe + yoe / 4 - yoe / 100))%Z).
  set (mp := ((5 * doy + 2) / 153)%Z).
  assert (Hdoe : (0 <= doe < 146097)%Z)
    by (subst doe era; Z.to_euclidean_division_equations; lia).
  assert (Hera : (4 <= era <= 24)%Z)
    by (subst era z; Z.to_euclidean_division_equations; lia).
  assert (Hyoe : (0 <= yoe <= 399)%Z)
    by (subst yoe; Z.to_euclidean_division_equations; lia).
  assert (Hdoy : (0 <= doy <= 365)%Z)
    by (subst doy yoe; Z.to_euclidean_division_equations; lia).
  assert (Hmp : (0 <= mp <= 11)%Z)
    by (subst mp; Z.to_euclidean_division_equations; lia).
  split; [Z.to_euclidean_division_equations; lia|].
  split; [Z.to_euclidean_division_equations; lia|].
  split; [Z.to_euclidean_division_equations; lia|].
  split; [subst mp; Z.to_euclidean_division_equations; lia|].
  split; [destruct (Z.ltb_spec mp 10); lia|].
  split; [|Z.to_euclidean_division_equations; lia].
  destruct (Z.ltb_spec mp 10) as [Hm|Hm];
    [destruct (Z.leb_spec (mp + 3) 2) | destruct (Z.leb_spec (mp - 9) 2)];
    try lia.
  - subst mp doy yoe doe era z. Z.to_euclidean_division_equations. lia.
  - subst mp doy yoe doe era z. Z.to_euclidean_division_equations. lia.
Qed.

Lemma two_digits_width n : (0 <= n <= 99)%Z -> Str.length (two_digits n) = 2%nat.
Proof.
  intros Hn.
  assert (Hall : Forall (fun k => Str.length (two_digits k) = 2%nat) (seqZ 0 100)).
  { apply (bool_decide_unpack _). vm_compute. exact I. }
  apply (proj1 (Forall_forall _ _) Hall). apply elem_of_seqZ. lia.
Qed.

Lemma year_width y : (1000 <= y <= 9999)%Z -> Str.length (Str.of_Z y) = 4%nat.
Proof.
  intros Hy.
  assert (Hall : Forall (fun k => Str.length (Str.of_Z k) = 4%nat) (seqZ 1000 9000)).
  { apply (bool_decide_unpack _). vm_compute. exact I. }
  apply (proj1 (Forall_forall _ _) Hall). apply elem_of_seqZ. lia.
Qed.

Lemma day_name_width d : (0 <= d <= 6)%Z -> Str.length (day_name d) = 3%nat.
Proof.
  intros Hd.
  assert (Hall : Forall (fun k => Str.length (day_name k) = 3%nat) (seqZ 0 7)).
  { apply (bool_decide_unpack _). vm_compute. exact I. }
  apply (proj1 (Forall_forall _ _) Hall). apply elem_of_seqZ. lia.
Qed.

Lemma month_name_width m : (0 <= m <= 11)%Z -> Str.length (month_name m) = 3%nat.
Proof.
  intros Hm.
  assert (Hall : Forall (fun k => Str.length (month_name k) = 3%nat) (seqZ 0 12)).
  { apply (bool_decide_unpack _). vm_compute. exact I. }
  apply (proj1 (Forall_forall _ _) Hall). apply elem_of_seqZ. lia.
Qed.

(** X12. From 1970 to the end of the year 9999 the date that
    [getTimeString] builds has 29 characters, which with the final NUL fit
    in the 100 bytes of [buf]: [strftime] never fails for want of room. *)
Theorem getTimeString_width (now : Z) :
  (0 <= now < 253402300800)%Z ->
  Str.length (getTimeString now) = 29%nat
  /\ (Str.length (getTimeString now) + 1 <= 100)%nat.
Proof.
  intros Hnow.
  assert (Hlen : Str.length (getTimeString now) = 29%nat); [|split; [done | lia]].
  destruct (gmtime_fields now Hnow) as (Hs & Hmi & Hh & Hd & Hmo & Hy & Hw).
  unfold getTimeString, strftime. rewrite !length_append.
  rewrite day_name_width, month_name_width, year_width by lia.
  rewrite !two_digits_width by lia. reflexivity.
Qed.

Lemma getTimeString_width_witness :
  Str.length (getTimeString 2147483647) = 29%nat
  /\ (Str.length (getTimeString 2147483647) + 1 <= 100)%nat.
Proof. apply (getTimeString_width 2147483647). lia. Defined.
